(** * Medical_RAG: a shallow embedding of the ingestion pipeline

    The development follows the four Python sources of the repository:

    - [medical_extractor.py]  (structured extraction of one page),
    - [1app.py]               (range recovery, range merge, structural
                               classifier, identity resolution),
    - [medical_db.py]         (bulk insert, explanation cache),
    - [pages/1_Problems.py]   (abnormal-value detection).

    Python text is modelled by [string], read as a sequence of code points
    below 256; the built-ins the sources call ([str.lower], [str.strip],
    [str.replace], [str.split], [in], [str.startswith], [float]) are written
    out first.  Binary64 numbers are the [spec_float] of the Standard
    Library, with the comparisons of [SpecFloat]. *)

From Stdlib Require Import ZArith NArith String Ascii List Bool Lia.
From Stdlib Require Import Floats.SpecFloat.
From stdpp Require Import gmap strings list.

Open Scope string_scope.
Open Scope Z_scope.

(** ** Python built-ins on text *)

Module Py.

Definition code (c : ascii) : N := N_of_ascii c.

Definition between (lo hi : N) (c : ascii) : bool :=
  ((lo <=? code c) && (code c <=? hi))%N.

(** [str.lower] on one code point: A-Z and the Latin-1 capitals. *)
Definition lower_char (c : ascii) : ascii :=
  if between 65 90 c || (between 192 222 c && negb (code c =? 215)%N)
  then ascii_of_N (code c + 32)
  else c.

Fixpoint lower (s : string) : string :=
  match s with
  | EmptyString => EmptyString
  | String c r => String (lower_char c) (lower r)
  end.

(** White space as [str.strip] sees it. *)
Definition is_space (c : ascii) : bool :=
  between 9 13 c || between 28 32 c || (code c =? 133)%N || (code c =? 160)%N.

(** White space as [float] sees it. *)
Definition float_space (c : ascii) : bool :=
  between 9 13 c || (code c =? 32)%N || (code c =? 133)%N || (code c =? 160)%N.

Section Strip.
Variable p : ascii -> bool.

Fixpoint lstrip_by (s : string) : string :=
  match s with
  | EmptyString => EmptyString
  | String c r => if p c then lstrip_by r else s
  end.

Fixpoint rstrip_by (s : string) : string :=
  match s with
  | EmptyString => EmptyString
  | String c r =>
      match rstrip_by r with
      | EmptyString => if p c then EmptyString else String c EmptyString
      | r' => String c r'
      end
  end.

Definition strip_by (s : string) : string := rstrip_by (lstrip_by s).
End Strip.

(** [s.strip()] *)
Definition strip (s : string) : string := strip_by is_space s.

(** [s.startswith(pre)] *)
Definition startswith (pre s : string) : bool := String.prefix pre s.

(** [sub in s] *)
Fixpoint contains (sub s : string) : bool :=
  String.prefix sub s ||
  match s with
  | EmptyString => false
  | String _ r => contains sub r
  end.

(** [s.replace(old, new)] for a non-empty [old]: occurrences are taken
    left to right and do not overlap; [skip] counts the characters of
    the occurrence being consumed. *)
Fixpoint replace_from (old new : string) (skip : nat) (s : string) : string :=
  match s with
  | EmptyString => EmptyString
  | String c r =>
      match skip with
      | S k => replace_from old new k r
      | O =>
          if String.prefix old s
          then new +:+ replace_from old new (Nat.pred (String.length old)) r
          else String c (replace_from old new 0 r)
      end
  end.

Definition replace (old new s : string) : string := replace_from old new 0 s.

(** [s.split(sep)] for a non-empty [sep]. *)
Fixpoint split_from (sep : string) (skip : nat) (s : string) : list string :=
  match s with
  | EmptyString => [EmptyString]
  | String c r =>
      match skip with
      | S k => split_from sep k r
      | O =>
          if String.prefix sep s
          then EmptyString :: split_from sep (Nat.pred (String.length sep)) r
          else match split_from sep 0 r with
               | piece :: pieces => String c piece :: pieces
               | [] => [String c EmptyString]
               end
      end
  end.

Definition split (sep s : string) : list string := split_from sep 0 s.

(** *** [float(text)]

    The text is stripped of white space, underscores are accepted only
    between two digits, the letters are read without regard to case, and
    what is left is a signed [inf], [infinity], [nan] or decimal numeral
    with an optional exponent.  The numeral is rounded to the nearest
    binary64, ties to even; an overflow gives an infinity. *)

Definition prec : Z := 53.
Definition emax : Z := 1024.

Definition is_digit (c : ascii) : bool := between 48 57 c.

Definition digit_val (c : ascii) : Z := Z.of_N (code c) - 48.

Definition is_underscore (c : ascii) : bool := (code c =? 95)%N.

Fixpoint strip_underscores (prev : ascii) (s : string) : option string :=
  match s with
  | EmptyString => if is_underscore prev then None else Some EmptyString
  | String c r =>
      if is_underscore c then
        if is_digit prev then strip_underscores c r else None
      else if is_underscore prev && negb (is_digit c) then None
      else option_map (String c) (strip_underscores c r)
  end.

Fixpoint span_digits (s : string) : string * string :=
  match s with
  | EmptyString => (EmptyString, EmptyString)
  | String c r =>
      if is_digit c
      then let '(d, t) := span_digits r in (String c d, t)
      else (EmptyString, s)
  end.

Fixpoint digits_to_Z (acc : Z) (s : string) : Z :=
  match s with
  | EmptyString => acc
  | String c r => digits_to_Z (10 * acc + digit_val c) r
  end.

(** An optional sign: whether it is a minus, and what follows it. *)
Definition take_sign (s : string) : bool * string :=
  match s with
  | String c r =>
      if (c =? "+")%char then (false, r)
      else if (c =? "-")%char then (true, r)
      else (false, s)
  | EmptyString => (false, s)
  end.

(** What follows the mantissa: nothing, or [e], a sign and digits. *)
Definition parse_exponent (s : string) : option Z :=
  match s with
  | EmptyString => Some 0
  | String c r =>
      if (c =? "e")%char then
        let '(neg, r') := take_sign r in
        match span_digits r' with
        | (EmptyString, _) => None
        | (d, EmptyString) =>
            Some (if neg then - digits_to_Z 0 d else digits_to_Z 0 d)
        | _ => None
        end
      else None
  end.

(** The digits after the point, when there is one, and what follows. *)
Definition take_fraction (s : string) : string * string :=
  match s with
  | String c t => if (c =? ".")%char then span_digits t else (EmptyString, s)
  | EmptyString => (EmptyString, s)
  end.

(** A decimal numeral as (mantissa, power of ten). *)
Definition parse_decimal (s : string) : option (Z * Z) :=
  let '(ip, r1) := span_digits s in
  let '(fp, r2) := take_fraction r1 in
  match ip +:+ fp with
  | EmptyString => None
  | ds =>
      match parse_exponent r2 with
      | Some e => Some (digits_to_Z 0 ds, e - Z.of_nat (String.length fp))
      | None => None
      end
  end.

(** [m * 10^e], correctly rounded. *)
Definition decimal_to_float (neg : bool) (m e : Z) : spec_float :=
  match m with
  | Zpos p =>
      if 0 <=? e
      then binary_normalize prec emax (cond_Zopp neg (Z.pos p * 10 ^ e)) 0 neg
      else SFdiv prec emax (S754_finite neg p 0)
                           (S754_finite false (Z.to_pos (10 ^ (- e))) 0)
  | _ => S754_zero neg
  end.

Definition parse_unsigned (neg : bool) (s : string) : option spec_float :=
  if (s =? "inf")%string || (s =? "infinity")%string then Some (S754_infinity neg)
  else if (s =? "nan")%string then Some S754_nan
  else match parse_decimal s with
       | Some (m, e) => Some (decimal_to_float neg m e)
       | None => None
       end.

Definition parse_signed (s : string) : option spec_float :=
  let '(neg, r) := take_sign s in parse_unsigned neg r.

Definition float (s : string) : option spec_float :=
  match strip_underscores "000"%char (lower (strip_by float_space s)) with
  | Some core => parse_signed core
  | None => None
  end.

(** Comparisons of binary64 numbers ([<], [>], [>=]). *)
Definition flt (x y : spec_float) : bool := SFltb x y.
Definition fgt (x y : spec_float) : bool := SFltb y x.
Definition fge (x y : spec_float) : bool := SFleb y x.

End Py.

(** ** Exceptions

    A Python call either returns or raises; [catch] is
    [try: ... except Exception: return d]. *)

Inductive exn :=
| KeyError | AttributeError | TypeError | ValueError | OverflowError
| JSONDecodeError | InterfaceError | ConnectionError.

Inductive result (A : Type) :=
| Ok (a : A)
| Raise (e : exn).

Arguments Ok {A} a.
Arguments Raise {A} e.

Global Instance result_ret : MRet result := @Ok.
Global Instance result_bind : MBind result :=
  fun A B f r => match r with Ok a => f a | Raise e => Raise e end.
Global Instance result_fmap : FMap result :=
  fun A B f r => match r with Ok a => Ok (f a) | Raise e => Raise e end.

Definition catch {A} (r : result A) (d : A) : A :=
  match r with Ok a => a | Raise _ => d end.

Definition raises {A} (r : result A) : Prop :=
  match r with Ok _ => False | Raise _ => True end.

(** Occurrence of a character in a text. *)
Fixpoint occurs (c : ascii) (s : string) : Prop :=
  match s with
  | EmptyString => False
  | String a r => a = c \/ occurs c r
  end.

(** ** pages/1_Problems.py: the abnormality detector *)

Module Problems.

(** [float(x)] inside a [try]: a text that is no numeral raises. *)
Definition to_float (s : string) : result spec_float :=
  match Py.float s with
  | Some f => Ok f
  | None => Raise ValueError
  end.

(** [parse_value]: the stored value is a text or NULL. *)
Definition parse_value (value : option string) : option spec_float :=
  match value with
  | None => None
  | Some v => Py.float (Py.strip (Py.replace "L" "" (Py.replace "H" "" v)))
  end.

(** The three [if] statements of [get_abnormal_type]; [Ok None] says
    that the statement did not return and control goes on. *)
Definition interval_shape (value : spec_float) (rng : string)
  : result (option string) :=
  if Py.contains "-" rng then
    match Py.split "-" rng with
    | [low; high] =>
        lo ← to_float low;
        if Py.flt value lo then Ok (Some "low")
        else
          hi ← to_float high;
          if Py.fgt value hi then Ok (Some "high") else Ok None
    | _ => Raise ValueError
    end
  else Ok None.

Definition upper_shape (value : spec_float) (rng : string)
  : result (option string) :=
  if Py.contains "upto" rng || Py.startswith "<" rng then
    limit ← to_float (Py.replace "<" "" (Py.replace "upto" "" rng));
    if Py.fgt value limit then Ok (Some "high") else Ok None
  else Ok None.

Definition lower_shape (value : spec_float) (rng : string)
  : result (option string) :=
  if Py.contains "morethan" rng || Py.startswith ">" rng then
    limit ← to_float (Py.replace ">" "" (Py.replace "morethan" "" rng));
    if Py.flt value limit then Ok (Some "low") else Ok None
  else Ok None.

(** Run [k] unless [r] has already returned a label. *)
Definition or_next (r k : result (option string)) : result (option string) :=
  o ← r; match o with Some l => Ok (Some l) | None => k end.

Definition normalize_range (normal_range : string) : string :=
  Py.replace " " "" (Py.lower normal_range).

(** The body of the [try]. *)
Definition range_body (value : spec_float) (normal_range : string)
  : result (option string) :=
  let rng := normalize_range normal_range in
  or_next (interval_shape value rng)
    (or_next (upper_shape value rng) (lower_shape value rng)).

Definition get_abnormal_type (raw_value normal_range : option string)
  : option string :=
  match parse_value raw_value with
  | None => None
  | Some value =>
      match normal_range with
      | None => None
      | Some nr =>
          if (nr =? "")%string then None
          else catch (range_body value nr) None
      end
  end.

(** The detector as section 4.5 of the specification words it: the
    shapes are alternatives, the first one whose test holds is the only
    one evaluated. *)
Definition first_shape_only (value : spec_float) (rng : string)
  : result (option string) :=
  if Py.contains "-" rng then interval_shape value rng
  else if Py.contains "upto" rng || Py.startswith "<" rng
       then upper_shape value rng
  else if Py.contains "morethan" rng || Py.startswith ">" rng
       then lower_shape value rng
  else Ok None.

(** The flag letters. *)
Definition is_flag (c : ascii) : bool :=
  (c =? "H")%char || (c =? "L")%char.

(** The value parser as section 4.5 words it: trailing flag letters and
    the white space around are stripped, the rest is parsed. *)
Definition parse_value_trailing (value : option string) : option spec_float :=
  match value with
  | None => None
  | Some v => Py.float (Py.strip (Py.rstrip_by is_flag (Py.strip v)))
  end.

(** Every character for which [p] holds removed. *)
Fixpoint remove_chars (p : ascii -> bool) (s : string) : string :=
  match s with
  | EmptyString => EmptyString
  | String c r =>
      if p c then remove_chars p r else String c (remove_chars p r)
  end.

End Problems.

(** ** Python values

    What [json.loads] builds and what the pipeline passes around: a test
    observation is a [VDict].  A dict is a finite map from its keys. *)

#[warnings="-register-all"]
Inductive pyval :=
| VNone
| VBool (b : bool)
| VInt (z : Z)
| VFloat (f : spec_float)
| VStr (s : string)
| VList (l : list pyval)
| VDict (d : gmap string pyval).

(** Truth value of an object ([if x], [x or y], [not x]). *)
Definition truthy (v : pyval) : bool :=
  match v with
  | VNone => false
  | VBool b => b
  | VInt z => negb (z =? 0)
  | VFloat f => negb (SFeqb f (S754_zero false))
  | VStr s => negb (s =? "")%string
  | VList l => match l with [] => false | _ :: _ => true end
  | VDict d => negb (bool_decide (dom d = ∅))
  end.

(** [v or w] *)
Definition or_else (v w : pyval) : pyval := if truthy v then v else w.

(** [v.get(k, dflt)]; only a dict has the method. *)
Definition attr_get (v : pyval) (k : string) (dflt : pyval) : result pyval :=
  match v with
  | VDict d => Ok (default dflt (d !! k))
  | _ => Raise AttributeError
  end.

(** [v[k]] with a text key. *)
Definition item (v : pyval) (k : string) : result pyval :=
  match v with
  | VDict d => match d !! k with Some x => Ok x | None => Raise KeyError end
  | _ => Raise TypeError
  end.

(** [v[k] = x] on a dict. *)
Definition set_item (v : pyval) (k : string) (x : pyval) : result pyval :=
  match v with
  | VDict d => Ok (VDict (<[k := x]> d))
  | _ => Raise TypeError
  end.

(** [v.lower()] and [v.strip()]; only a text has the methods. *)
Definition str_lower (v : pyval) : result string :=
  match v with VStr s => Ok (Py.lower s) | _ => Raise AttributeError end.

Definition str_strip (v : pyval) : result string :=
  match v with VStr s => Ok (Py.strip s) | _ => Raise AttributeError end.

(** [v == text] *)
Definition is_text (s : string) (v : pyval) : bool :=
  match v with VStr t => (t =? s)%string | _ => false end.

(** [float(v)] *)
Definition py_float (v : pyval) : result spec_float :=
  match v with
  | VBool b => Ok (binary_normalize Py.prec Py.emax (if b then 1 else 0) 0 false)
  | VInt z =>
      match binary_normalize Py.prec Py.emax z 0 false with
      | S754_infinity _ => Raise OverflowError
      | f => Ok f
      end
  | VFloat f => Ok f
  | VStr s => match Py.float s with Some f => Ok f | None => Raise ValueError end
  | VNone | VList _ | VDict _ => Raise TypeError
  end.

(** The values a [for] loop over [v] visits. *)
Definition iterate (v : pyval) : result (list pyval) :=
  match v with
  | VList l => Ok l
  | VStr s => Ok ((fun c => VStr (String c EmptyString)) <$> list_ascii_of_string s)
  | VDict d => Ok (VStr <$> (map_to_list d).*1)
  | VNone | VBool _ | VInt _ | VFloat _ => Raise TypeError
  end.

(** ** The language model service

    A request is the prompt template filled with its arguments; the reply
    is absent when [requests.post] raises, and its body is [None] when
    [res.json()] cannot decode it.  [json.loads] is the library parser. *)

Inductive request :=
| ExtractRequest (page_text : string)
| MatchRequest (new_name : pyval) (candidates : list pyval).

Inductive reply :=
| NoReply
| Reply (body : option pyval).

Definition res_json (body : option pyval) : result pyval :=
  match body with Some b => Ok b | None => Raise JSONDecodeError end.

Definition json_loads (loads : string -> option pyval) (v : pyval) : result pyval :=
  match v with
  | VStr s => match loads s with Some x => Ok x | None => Raise JSONDecodeError end
  | _ => Raise TypeError
  end.

(** ** medical_extractor.py *)

Module Extractor.

(** [re.sub(r"\s+", " ", name)] *)
Fixpoint collapse_spaces (in_run : bool) (s : string) : string :=
  match s with
  | EmptyString => EmptyString
  | String c r =>
      if Py.is_space c
      then if in_run then collapse_spaces true r
           else String " "%char (collapse_spaces true r)
      else String c (collapse_spaces false r)
  end.

Definition normalize_test_name (name : string) : string :=
  Py.strip
    (Py.replace ", " ","
       (Py.replace " ," "," (collapse_spaces false (Py.lower name)))).

(** The body of [for t in tests]: [t] is updated in place. *)
Definition normalize_entry (t : pyval) : result pyval :=
  name ← attr_get t "test_name" VNone;
  if truthy name then
    match name with
    | VStr s => set_item t "test_name" (VStr (normalize_test_name s))
    | _ => Raise AttributeError
    end
  else Ok t.

Definition normalize_tests (tests : pyval) : result pyval :=
  match tests with
  | VList l => VList <$> mapM normalize_entry l
  | _ => ts ← iterate tests; _ ← mapM normalize_entry ts; Ok tests
  end.

Section Service.
Variable post : request -> reply.
Variable loads : string -> option pyval.

(** The second [try] block. *)
Definition parse_tests (raw : string) : result pyval :=
  parsed ← json_loads loads (VStr raw);
  tests ← attr_get parsed "tests" (VList []);
  normalize_tests tests.

Definition extract_tests_from_page (page_text : string) : result pyval :=
  match post (ExtractRequest page_text) with
  | NoReply => Ok (VList [])
  | Reply body =>
      b ← res_json body;
      r ← attr_get b "response" (VStr "");
      raw ← str_strip r;
      Ok (catch (parse_tests raw) (VList []))
  end.
End Service.

End Extractor.

(** ** medical_db.py

    A table is the list of its rows in insertion order. *)

Module Db.

Record patient := { patient_id : Z; patient_name : string }.

Record report := {
  report_id : Z;
  report_patient : Z;
  report_date : option string;
  source_file : string
}.

Record test_result := {
  tr_report : Z;
  canonical_id : pyval;
  test_name : string;
  test_context : string;
  value : string;
  unit : string;
  normal_range : string
}.

Record explanation := {
  ex_test_name : string;
  ex_test_context : string;
  ex_abnormal_type : string;
  ex_text : string
}.

Record database := {
  patients : list patient;
  reports : list report;
  test_results : list test_result;
  test_explanations : list explanation
}.

(** [init_db] on a fresh file. *)
Definition init_db : database :=
  {| patients := []; reports := []; test_results := []; test_explanations := [] |}.

Definition with_test_results (db : database) (rows : list test_result) : database :=
  {| patients := patients db; reports := reports db;
     test_results := rows; test_explanations := test_explanations db |}.

Definition with_explanations (db : database) (rows : list explanation) : database :=
  {| patients := patients db; reports := reports db;
     test_results := test_results db; test_explanations := rows |}.

(** *** Test results *)

Section Insert.
(** [str(v)] of a value that is not a text. *)
Variable repr : pyval -> string.

Definition py_str (v : pyval) : string :=
  match v with VStr s => s | _ => repr v end.

(** Binding a value to a statement parameter. *)
Definition bind_parameter (v : pyval) : result pyval :=
  match v with
  | VList _ | VDict _ => Raise InterfaceError
  | VInt z =>
      if (- 2 ^ 63 <=? z) && (z <? 2 ^ 63) then Ok v else Raise OverflowError
  | _ => Ok v
  end.

(** One turn of the loop: the row to insert, or [None] on [continue]. *)
Definition row_of (rid : Z) (t : pyval) : result (option test_result) :=
  cid ← attr_get t "canonical_id" VNone;
  n ← attr_get t "test_name" VNone;
  n' ← str_strip (or_else n (VStr ""));
  let test_name := Py.lower n' in
  c ← attr_get t "test_context" VNone;
  c' ← str_strip (or_else c (VStr ""));
  let test_context := Py.lower c' in
  v ← attr_get t "value" VNone;
  let value := Py.strip (py_str (or_else v (VStr ""))) in
  u ← attr_get t "unit" VNone;
  let unit := Py.strip (py_str (or_else u (VStr ""))) in
  r1 ← attr_get t "reference_range" VNone;
  r2 ← attr_get t "normal_range" VNone;
  normal_range ← str_strip (or_else r1 (or_else r2 (VStr "")));
  if (test_name =? "")%string || (value =? "")%string then Ok None
  else
    cid' ← bind_parameter cid;
    Ok (Some {| tr_report := rid; canonical_id := cid';
                test_name := test_name; test_context := test_context;
                value := value; unit := unit;
                normal_range := normal_range |}).

Fixpoint new_rows (rid : Z) (tests : list pyval) : result (list test_result) :=
  match tests with
  | [] => Ok []
  | t :: rest =>
      row ← row_of rid t;
      rows ← new_rows rid rest;
      Ok (match row with Some x => x :: rows | None => rows end)
  end.

(** The rows are committed at the end; an exception in the loop leaves
    the table as it was. *)
Definition insert_test_results (db : database) (rid : Z) (tests : list pyval)
  : result database :=
  rows ← new_rows rid tests;
  Ok (with_test_results db (test_results db ++ rows)).
End Insert.

(** [SELECT DISTINCT test_name, unit ... WHERE p.name = ?] *)
Definition patient_rows (db : database) (name : string) : list (string * string) :=
  remove_dups
    (t ← test_results db;
     r ← filter (fun r => report_id r = tr_report t) (reports db);
     p ← filter (fun p => patient_id p = report_patient r
                          /\ patient_name p = name) (patients db);
     [(test_name t, unit t)]).

(** *** Explanations *)

Definition same_key (n c a : string) (e : explanation) : Prop :=
  ex_test_name e = n /\ ex_test_context e = c /\ ex_abnormal_type e = a.

Global Instance same_key_dec n c a e : Decision (same_key n c a e).
Proof. unfold same_key. apply _. Defined.

Definition get_test_explanation (db : database)
    (test_name test_context abnormal_type : string) : option string :=
  match filter (same_key (Py.lower test_name) (Py.lower test_context) abnormal_type)
               (test_explanations db) with
  | row :: _ => Some (ex_text row)
  | [] => None
  end.

(** [INSERT OR REPLACE]: a row with the same primary key is deleted. *)
Definition save_test_explanation (db : database)
    (test_name test_context abnormal_type explanation : string) : database :=
  let n := Py.lower test_name in
  let c := Py.lower test_context in
  with_explanations db
    (filter (fun e => ~ same_key n c abnormal_type e) (test_explanations db)
     ++ [{| ex_test_name := n; ex_test_context := c;
            ex_abnormal_type := abnormal_type; ex_text := explanation |}]).

Definition clear_test_explanations (db : database) : database :=
  with_explanations db [].

(** The primary key of a row. *)
Definition key_of (e : explanation) : string * string * string :=
  (ex_test_name e, ex_test_context e, ex_abnormal_type e).

End Db.

(** ** 1app.py: range recovery

    [recover_ranges_from_text] scans the lines of a page.  On text of
    code points below 256 the dash of the interval pattern is the ASCII
    one and the limit tokens are [upto] and [<]. *)

Module Recovery.

(** Line boundaries of [str.splitlines]. *)
Definition is_line_break (c : ascii) : bool :=
  Py.between 10 13 c || Py.between 28 30 c || (Py.code c =? 133)%N.

(** The pieces between line boundaries; the empty ones are dropped by
    the caller. *)
Fixpoint splitlines (s : string) : list string :=
  match s with
  | EmptyString => [EmptyString]
  | String c r =>
      if is_line_break c then EmptyString :: splitlines r
      else match splitlines r with
           | line :: lines => String c line :: lines
           | [] => [String c EmptyString]
           end
  end.

Definition is_upper_char (c : ascii) : bool :=
  Py.between 65 90 c || (Py.between 192 222 c && negb (Py.code c =? 215)%N).

Definition is_lower_char (c : ascii) : bool :=
  Py.between 97 122 c || (Py.code c =? 170)%N || (Py.code c =? 181)%N
  || (Py.code c =? 186)%N || (Py.between 223 255 c && negb (Py.code c =? 247)%N).

Fixpoint has_char (p : ascii -> bool) (s : string) : bool :=
  match s with
  | EmptyString => false
  | String c r => p c || has_char p r
  end.

(** [line.isupper()] *)
Definition isupper (line : string) : bool :=
  has_char is_upper_char line && negb (has_char is_lower_char line).

(** [word] at the start of [s], letters compared without regard to case. *)
Fixpoint starts_ci (word s : string) : bool :=
  match word, s with
  | EmptyString, _ => true
  | String a w, String c r =>
      (Py.lower_char a =? Py.lower_char c)%char && starts_ci w r
  | String _ _, EmptyString => false
  end.

Definition unit_tokens : list string :=
  ["mg/dl"; "mg/dL"; "ug/dL"; "ng/ml"; "uIU/mL"; "Ratio"].

(** [re.search] of the unit pattern: the lower-cased token at the first
    position where one of the alternatives matches. *)
Fixpoint find_unit (s : string) : option string :=
  match find (fun tok => starts_ci tok s) unit_tokens with
  | Some tok => Some (Py.lower tok)
  | None =>
      match s with
      | EmptyString => None
      | String _ r => find_unit r
      end
  end.

Fixpoint span_spaces (s : string) : string * string :=
  match s with
  | EmptyString => (EmptyString, EmptyString)
  | String c r =>
      if Py.is_space c
      then let '(w, t) := span_spaces r in (String c w, t)
      else (EmptyString, s)
  end.

(** [\d+(\.\d+)?] at the start of [s]: the number and what follows. *)
Definition take_number (s : string) : option (string * string) :=
  match Py.span_digits s with
  | (EmptyString, _) => None
  | (d, r) =>
      match r with
      | String c t =>
          if (c =? ".")%char then
            match Py.span_digits t with
            | (EmptyString, _) => Some (d, r)
            | (f, r') => Some (d +:+ "." +:+ f, r')
            end
          else Some (d, r)
      | EmptyString => Some (d, r)
      end
  end.

(** The interval pattern at the start of [s]: the text it matches. *)
Definition interval_here (s : string) : option string :=
  match take_number s with
  | None => None
  | Some (n1, r1) =>
      let '(w1, r2) := span_spaces r1 in
      match r2 with
      | String c r3 =>
          if (c =? "-")%char then
            let '(w2, r4) := span_spaces r3 in
            match take_number r4 with
            | Some (n2, _) => Some (n1 +:+ w1 +:+ "-" +:+ w2 +:+ n2)
            | None => None
            end
          else None
      | EmptyString => None
      end
  end.

Fixpoint find_interval (s : string) : option string :=
  match interval_here s with
  | Some m => Some m
  | None =>
      match s with
      | EmptyString => None
      | String _ r => find_interval r
      end
  end.

(** The limit pattern at the start of [s]: its token as written and its
    number. *)
Definition limit_here (s : string) : option (string * string) :=
  let after (tok rest : string) :=
    let '(_, r) := span_spaces rest in
    match take_number r with
    | Some (n, _) => Some (tok, n)
    | None => None
    end in
  if starts_ci "upto" s
  then after (String.substring 0 4 s) (String.substring 4 (String.length s - 4) s)
  else match s with
       | String c r => if (c =? "<")%char then after "<" r else None
       | EmptyString => None
       end.

Fixpoint find_limit (s : string) : option (string * string) :=
  match limit_here s with
  | Some m => Some m
  | None =>
      match s with
      | EmptyString => None
      | String _ r => find_limit r
      end
  end.

Definition is_heading (line : string) : bool :=
  (8 <? String.length line)%nat && isupper line
  && negb (Py.contains "METHOD" line || Py.contains "PROFILE" line).

(** The body of the loop over the lines: the heading in force and the
    ranges recovered so far. *)
Definition scan_line (st : option string * gmap (string * string) string)
    (line : string) : option string * gmap (string * string) string :=
  let '(current_test, recovered) := st in
  if is_heading line then (Some (Py.lower line), recovered)
  else
    match current_test with
    | None => st
    | Some test =>
        let unit := default "" (find_unit line) in
        match find_interval line with
        | Some m => (current_test, <[(test, unit) := m]> recovered)
        | None =>
            match find_limit line with
            | Some (tok, n) =>
                (current_test, <[(test, unit) := tok +:+ " " +:+ n]> recovered)
            | None => st
            end
        end
    end.

Definition clean_lines (page_text : string) : list string :=
  filter (fun l => l <> "") (Py.strip <$> splitlines page_text).

Definition recover_ranges_from_text (page_text : string)
  : gmap (string * string) string :=
  (foldl scan_line (None, ∅) (clean_lines page_text)).2.

End Recovery.

(** ** 1app.py *)

Module App.

(** [MATCH_CONFIDENCE_THRESHOLD = 0.9], as the binary64 the literal denotes. *)
Definition MATCH_CONFIDENCE_THRESHOLD : spec_float :=
  S754_finite false 8106479329266893 (-53).

(** *** The structural classifier *)

Definition classify_test_type (test_name unit : pyval) : result string :=
  name ← str_lower test_name;
  if Py.contains "/" name then Ok "ratio"
  else
    u ← str_lower unit;
    if (u =? "ratio")%string then Ok "ratio" else Ok "concentration".

Definition any_in (words : list string) (n : string) : bool :=
  existsb (fun x => Py.contains x n) words.

Definition extract_panel (test_name : pyval) : result string :=
  n ← str_lower test_name;
  if any_in ["thyroid"; "tsh"; "t3"; "t4"] n then Ok "thyroid"
  else if any_in ["cholesterol"; "triglyceride"; "hdl"; "ldl"; "vldl"; "lipid"] n
       then Ok "lipid"
  else if Py.contains "bilirubin" n || Py.contains "liver" n then Ok "liver"
  else Ok "unknown".

(** The dict with the keys [name], [unit], [type] and [panel]. *)
Record described := {
  name : pyval;
  unit : pyval;
  type : string;
  panel : string
}.

Definition describe (n u : pyval) : result described :=
  ty ← classify_test_type n u;
  pn ← extract_panel n;
  Ok {| name := n; unit := u; type := ty; panel := pn |}.

Definition get_existing_tests_for_patient (db : Db.database) (patient_name : string)
  : result (list described) :=
  mapM (fun row : string * string => describe (VStr row.1) (VStr row.2))
       (Db.patient_rows db patient_name).

(** *** The range merge (lines 204-227) *)

Definition key_of (t : pyval) : result (string * string) :=
  n ← item t "test_name";
  n' ← str_lower (or_else n (VStr ""));
  u ← attr_get t "unit" VNone;
  u' ← str_lower (or_else u (VStr ""));
  Ok (n', u').

(** The body of [for t in page_tests]. *)
Definition cache_step (recovered : gmap (string * string) string)
    (range_cache : gmap (string * string) pyval) (t : pyval)
  : result (gmap (string * string) pyval) :=
  key ← key_of t;
  r ← attr_get t "reference_range" VNone;
  if truthy r then
    r' ← item t "reference_range";
    Ok (<[key := r']> range_cache)
  else
    match recovered !! key with
    | Some x => Ok (<[key := VStr x]> range_cache)
    | None => Ok range_cache
    end.

Fixpoint cache_tests (recovered : gmap (string * string) string)
    (range_cache : gmap (string * string) pyval) (ts : list pyval)
  : result (gmap (string * string) pyval) :=
  match ts with
  | [] => Ok range_cache
  | t :: rest =>
      c ← cache_step recovered range_cache t;
      cache_tests recovered c rest
  end.

Record merge_state := {
  all_tests : list pyval;
  range_cache : gmap (string * string) pyval
}.

(** The body of the second loop. *)
Definition fill_range (cache : gmap (string * string) pyval) (t : pyval)
  : result pyval :=
  key ← key_of t;
  r ← attr_get t "reference_range" VNone;
  if negb (truthy r) then
    match cache !! key with
    | Some x => set_item t "reference_range" x
    | None => Ok t
    end
  else Ok t.

Section Merge.
Variable extract_tests_from_page : string -> result pyval.
Variable recover_ranges_from_text : string -> gmap (string * string) string.

(** The body of [for page in reader.pages], on the text of the page. *)
Definition page_step (st : merge_state) (text : string) : result merge_state :=
  if (text =? "")%string then Ok st
  else
    page_tests ← extract_tests_from_page text;
    let recovered := recover_ranges_from_text text in
    ts ← iterate page_tests;
    cache ← cache_tests recovered (range_cache st) ts;
    more ← iterate (or_else page_tests (VList []));
    Ok {| all_tests := all_tests st ++ more; range_cache := cache |}.

Fixpoint first_pass (st : merge_state) (texts : list string) : result merge_state :=
  match texts with
  | [] => Ok st
  | text :: rest => st' ← page_step st text; first_pass st' rest
  end.

Definition merge_pages (texts : list string) : result merge_state :=
  st ← first_pass {| all_tests := []; range_cache := ∅ |} texts;
  filled ← mapM (fill_range (range_cache st)) (all_tests st);
  Ok {| all_tests := filled; range_cache := range_cache st |}.
End Merge.

(** *** Identity resolution (lines 124-169 and 232-249) *)

Definition is_candidate (new_test et : described) : result bool :=
  if (type et =? type new_test)%string && (panel et =? panel new_test)%string then
    eu ← str_lower (unit et);
    nu ← str_lower (unit new_test);
    Ok (eu =? nu)%string
  else Ok false.

Fixpoint candidates_of (new_test : described) (existing_tests : list described)
  : result (list described) :=
  match existing_tests with
  | [] => Ok []
  | et :: rest =>
      keep ← is_candidate new_test et;
      rest' ← candidates_of new_test rest;
      Ok (if (keep : bool) then et :: rest' else rest')
  end.

(** What follows the [try] in [ai_match_test_name]. *)
Definition accept (out : pyval) : result (option pyval) :=
  m ← attr_get out "match" VNone;
  if truthy m then
    if is_text "no_match" m then Ok None
    else
      c ← attr_get out "confidence" (VInt 0);
      f ← py_float c;
      if Py.fge f MATCH_CONFIDENCE_THRESHOLD then Ok (Some m) else Ok None
  else Ok None.

Section Resolver.
Variable post : request -> reply.
Variable loads : string -> option pyval.

(** The [try] block: the parsed answer of the matcher. *)
Definition matcher_output (req : request) : result pyval :=
  match post req with
  | NoReply => Raise ConnectionError
  | Reply body =>
      b ← res_json body;
      r ← item b "response";
      json_loads loads r
  end.

(** The result, and the requests sent to the service. *)
Definition ai_match_test_name (new_test : described) (existing_tests : list described)
  : list request * result (option pyval) :=
  match existing_tests with
  | [] => ([], Ok None)
  | _ :: _ =>
      let req := MatchRequest (name new_test) (name <$> existing_tests) in
      ([req],
       match matcher_output req with
       | Raise _ => Ok None
       | Ok out => accept out
       end)
  end.

(** The body of [for t in all_tests]. *)
Definition resolve_test (existing_tests : list described) (t : pyval)
  : list request * result pyval :=
  match
    (n ← item t "test_name";
     u ← attr_get t "unit" (VStr "");
     new_test ← describe n u;
     candidates ← candidates_of new_test existing_tests;
     Ok (new_test, candidates))
  with
  | Raise e => ([], Raise e)
  | Ok (new_test, candidates) =>
      let '(sent, r) := ai_match_test_name new_test candidates in
      (sent,
       matched ← r;
       match matched with
       | Some m => if truthy m then set_item t "test_name" m else Ok t
       | None => Ok t
       end)
  end.

Fixpoint resolve_tests (existing_tests : list described) (ts : list pyval)
  : list request * result (list pyval) :=
  match ts with
  | [] => ([], Ok [])
  | t :: rest =>
      let '(sent, r) := resolve_test existing_tests t in
      match r with
      | Raise e => (sent, Raise e)
      | Ok t' =>
          let '(sent', r') := resolve_tests existing_tests rest in
          ((sent ++ sent')%list, (fun ts' => t' :: ts') <$> r')
      end
  end.

Variable extract_tests_from_page : string -> result pyval.
Variable recover_ranges_from_text : string -> gmap (string * string) string.
Variable repr : pyval -> string.

(** Lines 204-251: merge, resolve, insert. *)
Definition process_document (db : Db.database) (texts : list string)
    (patient_name : string) (report_id : Z)
  : list request * result Db.database :=
  match
    (st ← merge_pages extract_tests_from_page recover_ranges_from_text texts;
     existing_tests ← get_existing_tests_for_patient db patient_name;
     Ok (st, existing_tests))
  with
  | Raise e => ([], Raise e)
  | Ok (st, existing_tests) =>
      let '(sent, r) := resolve_tests existing_tests (all_tests st) in
      (sent, ts ← r; Db.insert_test_results repr db report_id ts)
  end.
End Resolver.

End App.

(** ** Vocabulary of the statements

    What an observation holds under a key, read as the statements below
    need it, and the shape of a stored row. *)

Module Stored.

(** The text under key [k]; empty when the key is absent or holds no text. *)
Definition field_text (t : pyval) (k : string) : string :=
  match t with
  | VDict d => match d !! k with Some (VStr s) => s | _ => "" end
  | _ => ""
  end.

(** [str(t.get(k) or "")] *)
Definition shown (repr : pyval -> string) (t : pyval) (k : string) : string :=
  match t with
  | VDict d => Db.py_str repr (or_else (default VNone (d !! k)) (VStr ""))
  | _ => ""
  end.

(** The entries the bulk insert keeps: stripped name and stripped value
    are both non-empty. *)
Definition kept (repr : pyval -> string) (t : pyval) : bool :=
  negb (Py.strip (field_text t "test_name") =? "")%string
  && negb (Py.strip (shown repr t "value") =? "")%string.

(** The row stored for an entry. *)
Definition stores (repr : pyval -> string) (rid : Z) (t : pyval)
    (row : Db.test_result) : Prop :=
  Db.tr_report row = rid
  /\ Db.test_name row = Py.lower (Py.strip (field_text t "test_name"))
  /\ Db.test_context row = Py.lower (Py.strip (field_text t "test_context"))
  /\ Db.value row = Py.strip (shown repr t "value")
  /\ Db.unit row = Py.strip (shown repr t "unit").

Definition filled (row : Db.test_result) : Prop :=
  Db.test_name row <> "" /\ Db.value row <> "".

(** Lower-cased and stripped name and context, stripped value and unit. *)
Definition normalized (row : Db.test_result) : Prop :=
  Py.lower (Db.test_name row) = Db.test_name row
  /\ Py.strip (Db.test_name row) = Db.test_name row
  /\ Py.lower (Db.test_context row) = Db.test_context row
  /\ Py.strip (Db.test_context row) = Db.test_context row
  /\ Py.strip (Db.value row) = Db.value row
  /\ Py.strip (Db.unit row) = Db.unit row.

(** The table after a call: an exception leaves it as it was. *)
Definition after (db : Db.database) (r : result Db.database) : Db.database :=
  match r with Ok db' => db' | Raise _ => db end.

End Stored.

(** ** Sample data *)

Module Sample.

(** [str] of the values that are no text is not needed by the samples. *)
Definition repr (v : pyval) : string := "?".

Definition observation (n v u r : string) : pyval :=
  VDict {[ "test_name" := VStr n; "test_context" := VStr "Lipid Profile";
           "value" := VStr v; "unit" := VStr u; "reference_range" := VStr r ]}.

Definition batch : list pyval :=
  [ observation "Total Cholesterol" " 182 " "mg/dL" "125-200";
    observation "hdl cholesterol" "" "mg/dL" "40-60";
    observation "  " "3.1" "" "" ].

(** What the bulk insert stores for [batch] under report 7. *)
Definition stored_batch : list Db.test_result :=
  [ {| Db.tr_report := 7; Db.canonical_id := VNone;
       Db.test_name := "total cholesterol"; Db.test_context := "lipid profile";
       Db.value := "182"; Db.unit := "mg/dL"; Db.normal_range := "125-200" |} ].

(** Pages of one report.  The first page gives the cholesterol line
    with its range, and nothing is recovered from it: its only upper-case
    line is a [PROFILE] line.  On the second page the extractor returns
    the same test without a range, and the scan of the page finds the
    heading line and, below it, a unit token and an interval.  The third
    page has no heading line. *)
Definition nl : string := String (ascii_of_N 10) EmptyString.

Definition page_one : string :=
  "LIPID PROFILE" +:+ nl +:+ "Total Cholesterol 182 mg/dL 100-200".

Definition page_two : string :=
  "TOTAL CHOLESTEROL" +:+ nl +:+ "160 mg/dL 125-200".

Definition page_three : string :=
  "Total Cholesterol (repeat) 171 mg/dL".

Definition reading (v r : string) : pyval :=
  VDict {[ "test_name" := VStr "total cholesterol"; "test_context" := VStr "";
           "value" := VStr v; "unit" := VStr "mg/dL"; "reference_range" := VStr r ]}.

Definition cholesterol : string * string := ("total cholesterol", "mg/dl").

Definition extract (text : string) : result pyval :=
  if (text =? page_one)%string then Ok (VList [reading "182" "100-200"])
  else if (text =? page_two)%string then Ok (VList [reading "160" ""])
  else if (text =? page_three)%string then Ok (VList [reading "171" ""])
  else Ok (VList []).

Definition nothing : gmap (string * string) string := ∅.

(** A patient with two lipid tests on record, and a matcher that answers
    every request with the same accepted name. *)
Definition quote : string := String (ascii_of_N 34) EmptyString.

Definition answer_text (m c : string) : string :=
  "{" +:+ quote +:+ "match" +:+ quote +:+ ": " +:+ quote +:+ m +:+ quote
  +:+ ", " +:+ quote +:+ "confidence" +:+ quote +:+ ": " +:+ c +:+ "}".

Definition answer (m c : string) : pyval :=
  VDict {[ "match" := VStr m;
           "confidence" := VFloat (default S754_nan (Py.float c)) ]}.

Definition post (m c : string) (req : request) : reply :=
  Reply (Some (VDict {[ "response" := VStr (answer_text m c) ]})).

(** [json.loads] on the one text the samples send back. *)
Definition loads (m c : string) (text : string) : option pyval :=
  if (text =? answer_text m c)%string then Some (answer m c) else None.

Definition on_record (n u : string) : App.described :=
  {| App.name := VStr n; App.unit := VStr u;
     App.type := "concentration"; App.panel := "lipid" |}.

Definition vocabulary : list App.described :=
  [ on_record "hdl cholesterol" "mg/dl"; on_record "ldl cholesterol" "mmol/l" ].

Definition ldl_reading : pyval :=
  VDict {[ "test_name" := VStr "ldl chol"; "value" := VStr "131";
           "unit" := VStr "mg/dL" ]}.

Definition cholesterol_reading : pyval :=
  VDict {[ "test_name" := VStr "cholesterol total"; "value" := VStr "182";
           "unit" := VStr "mg/dL" ]}.

End Sample.

(** The observations of a document in processing order, each with the
    ranges recovered from its page, and the first loop of the merge as a
    run over them. *)

Module Trace.

Section Observations.
Variable extract_tests_from_page : string -> result pyval.
Variable recover_ranges_from_text : string -> gmap (string * string) string.

Definition page_observations (text : string)
  : result (list (pyval * gmap (string * string) string)) :=
  if (text =? "")%string then Ok []
  else
    page_tests ← extract_tests_from_page text;
    ts ← iterate page_tests;
    Ok ((fun t => (t, recover_ranges_from_text text)) <$> (ts : list pyval)).

Fixpoint observations (texts : list string)
  : result (list (pyval * gmap (string * string) string)) :=
  match texts with
  | [] => Ok []
  | text :: rest =>
      here ← page_observations text;
      later ← observations rest;
      Ok (here ++ later)%list
  end.
End Observations.

Fixpoint cache_events (range_cache : gmap (string * string) pyval)
    (evs : list (pyval * gmap (string * string) string))
  : result (gmap (string * string) pyval) :=
  match evs with
  | [] => Ok range_cache
  | (t, recovered) :: rest =>
      c ← App.cache_step recovered range_cache t;
      cache_events c rest
  end.

(** [t] has key [k] and carries the non-empty range [r]. *)
Definition supplies (k : string * string) (r : pyval) (t : pyval) : Prop :=
  App.key_of t = Ok k /\ item t "reference_range" = Ok r /\ truthy r = true.

(** [t] has key [k] and carries no range. *)
Definition lacks (k : string * string) (t : pyval) : Prop :=
  App.key_of t = Ok k /\
  exists r, attr_get t "reference_range" VNone = Ok r /\ truthy r = false.

(** No observation of [evs] writes a recovered range under [k]. *)
Definition no_recovered_write (k : string * string)
    (evs : list (pyval * gmap (string * string) string)) : Prop :=
  forall t recovered, (t, recovered) ∈ evs -> lacks k t -> recovered !! k = None.

(** The answer [out] of the matcher is accepted with the name [m]: it is
    structured output (a dict) whose [match] is [m], non-empty and not the
    [no_match] sentinel, and whose confidence is at least the threshold. *)
Definition accepted (out m : pyval) : Prop :=
  exists d,
    out = VDict d
    /\ d !! "match" = Some m
    /\ truthy m = true
    /\ is_text "no_match" m = false
    /\ exists f,
         py_float (default (VInt 0) (d !! "confidence")) = Ok f
         /\ Py.fge f App.MATCH_CONFIDENCE_THRESHOLD = true.

(** [et] agrees with [new_test] on type, panel and lower-cased unit. *)
Definition compatible (new_test et : App.described) : Prop :=
  App.type et = App.type new_test
  /\ App.panel et = App.panel new_test
  /\ exists u, str_lower (App.unit et) = Ok u /\ str_lower (App.unit new_test) = Ok u.

End Trace.

(** The characters a text that [float] accepts can hold: white space,
    underscores, digits, signs, the point, and the letters of the
    exponent, of [inf], [infinity] and [nan] in either case. *)

Module Numeral.

Definition core_char (c : ascii) : bool :=
  Py.is_digit c || existsb (Ascii.eqb c) (list_ascii_of_string "+-.einftya").

Definition numeral_char (c : ascii) : bool :=
  Py.float_space c || Py.is_underscore c || core_char (Py.lower_char c).

Definition dash (c : ascii) : bool := (c =? "-")%char.

(** No character of [s] satisfies [p]. *)
Definition free_of (p : ascii -> bool) (s : string) : Prop :=
  forall c, occurs c s -> p c = false.

(** Every character of [s] satisfies [p]. *)
Definition made_of (p : ascii -> bool) (s : string) : Prop :=
  forall c, occurs c s -> p c = true.

End Numeral.

(** ** medical_db.py: patients, reports and canonical tests *)

Module Records.

(** [cur.lastrowid] of an insert into a table with an [AUTOINCREMENT]
    key: one more than the largest key, and 1 in an empty table. *)
Definition next_id (ids : list Z) : Z := 1 + foldr Z.max 0 ids.

Definition with_patients (db : Db.database) (rows : list Db.patient) : Db.database :=
  {| Db.patients := rows; Db.reports := Db.reports db;
     Db.test_results := Db.test_results db;
     Db.test_explanations := Db.test_explanations db |}.

Definition with_reports (db : Db.database) (rows : list Db.report) : Db.database :=
  {| Db.patients := Db.patients db; Db.reports := rows;
     Db.test_results := Db.test_results db;
     Db.test_explanations := Db.test_explanations db |}.

(** The database after the call, and the returned [patient_id]. *)
Definition get_or_create_patient (db : Db.database) (name : string)
  : Db.database * Z :=
  match filter (fun p => Db.patient_name p = name) (Db.patients db) with
  | row :: _ => (db, Db.patient_id row)
  | [] =>
      let patient_id := next_id (Db.patient_id <$> Db.patients db) in
      (with_patients db
         (Db.patients db ++
          [{| Db.patient_id := patient_id; Db.patient_name := name |}])%list,
       patient_id)
  end.

(** The database after the call, and the returned [report_id]. *)
Definition insert_report (db : Db.database) (patient_id : Z)
    (report_date : option string) (source_file : string) : Db.database * Z :=
  let report_id := next_id (Db.report_id <$> Db.reports db) in
  (with_reports db
     (Db.reports db ++
      [{| Db.report_id := report_id; Db.report_patient := patient_id;
          Db.report_date := report_date; Db.source_file := source_file |}])%list,
   report_id).

(** Keys are keys and references point to rows. *)
Record consistent (db : Db.database) : Prop := {
  patient_ids_distinct : NoDup (Db.patient_id <$> Db.patients db);
  patient_names_distinct : NoDup (Db.patient_name <$> Db.patients db);
  report_ids_distinct : NoDup (Db.report_id <$> Db.reports db);
  reports_have_patients :
    forall r, r ∈ Db.reports db ->
              Db.report_patient r ∈ Db.patient_id <$> Db.patients db;
  results_have_reports :
    forall t, t ∈ Db.test_results db ->
              Db.tr_report t ∈ Db.report_id <$> Db.reports db
}.

End Records.

Module Canonical.

(** A row of [canonical_tests]; every column may be NULL. *)
Record canonical_test := {
  canonical_id : option string;
  canonical_name : option string;
  unit : option string;
  panel : option string
}.

(** [INSERT OR REPLACE]: a row with the same non-NULL key is deleted.
    NULL keys never conflict. *)
Definition conflicts (id : option string) (row : canonical_test) : Prop :=
  exists k, id = Some k /\ canonical_id row = Some k.

Global Instance conflicts_dec id row : Decision (conflicts id row).
Proof.
  unfold conflicts. destruct id as [k|], (canonical_id row) as [k'|].
  - destruct (decide (k = k')) as [->|Hne]; [left; eauto|].
    right. intros (? & ? & ?). congruence.
  - right. intros (? & ? & ?). congruence.
  - right. intros (? & ? & ?). congruence.
  - right. intros (? & ? & ?). congruence.
Defined.

Definition upsert_canonical_test (table : list canonical_test)
    (id name u p : option string) : list canonical_test :=
  (filter (fun row => ~ conflicts id row) table
   ++ [{| canonical_id := id; canonical_name := name; unit := u; panel := p |}])%list.

Definition get_all_canonical_tests (table : list canonical_test)
  : list (option string * option string * option string * option string) :=
  (fun row => (canonical_id row, canonical_name row, unit row, panel row)) <$> table.

End Canonical.

(** ** 1app.py: the upload handler (lines 191-253) *)

Module Ingest.

Inductive outcome :=
| Stopped            (* no patient name: [st.error], [st.stop()] *)
| Added              (* "medical report added successfully" *)
| Failed (e : exn).  (* an exception left the handler *)

Section Handler.
Variable post : request -> reply.
Variable loads : string -> option pyval.
Variable extract_tests_from_page : string -> result pyval.
Variable recover_ranges_from_text : string -> gmap (string * string) string.
Variable repr : pyval -> string.

(** [patient_name] and [report_date] are the two entries of
    [patient_info].  Patient and report are committed before the pages
    are processed; the test rows are committed at the end. *)
Definition add_document (db : Db.database) (patient_name report_date : option string)
    (source_file : string) (texts : list string)
  : Db.database * list request * outcome :=
  match patient_name with
  | None => (db, [], Stopped)
  | Some name =>
      if (name =? "")%string then (db, [], Stopped)
      else
        let '(db1, patient_id) := Records.get_or_create_patient db name in
        let '(db2, report_id) :=
          Records.insert_report db1 patient_id report_date source_file in
        let '(sent, r) :=
          App.process_document post loads extract_tests_from_page
            recover_ranges_from_text repr db2 texts name report_id in
        match r with
        | Ok db3 => (db3, sent, Added)
        | Raise e => (db2, sent, Failed e)
        end
  end.
End Handler.

End Ingest.

(** ** Sample data for the upload handler *)

Module Upload.

(** A service every reply of which has a body that is no JSON. *)
Definition garbled (req : request) : reply := Reply None.

Definition no_json (text : string) : option pyval := None.

Definition nothing_recovered (text : string) : gmap (string * string) string := ∅.

(** A fresh database after the upload of [report.pdf] for a new patient
    was ended by an exception. *)
Definition empty_report : Db.database :=
  {| Db.patients := [{| Db.patient_id := 1; Db.patient_name := "Asha Rao" |}];
     Db.reports := [{| Db.report_id := 1; Db.report_patient := 1;
                       Db.report_date := None; Db.source_file := "report.pdf" |}];
     Db.test_results := []; Db.test_explanations := [] |}.

End Upload.

(** ** Entries of a batch, as the invariant of the bulk insert reads them *)

Module Batch.

(** The text of a value: [str(v)], and nothing for [None]. *)
Definition text_of (repr : pyval -> string) (v : pyval) : string :=
  match v with
  | VNone => ""
  | VStr s => s
  | _ => repr v
  end.

(** The text of the value of an entry; nothing when the entry has none. *)
Definition value_text (repr : pyval -> string) (t : pyval) : string :=
  match t with
  | VDict d =>
      match d !! "value" with
      | Some v => text_of repr v
      | None => ""
      end
  | _ => ""
  end.

(** Stripped name and stripped value of the entry are both non-empty. *)
Definition filled (repr : pyval -> string) (t : pyval) : Prop :=
  Py.strip (Stored.field_text t "test_name") <> ""
  /\ Py.strip (value_text repr t) <> "".

Global Instance filled_dec repr t : Decision (filled repr t).
Proof. unfold filled. apply _. Defined.









End Batch.

(** ** Runs of the resolver *)

Module Run.



End Run.

(** * Properties *)

(** ** Facts about the built-ins *)

Section TextFacts.

Lemma lower_char_idem c : Py.lower_char (Py.lower_char c) = Py.lower_char c.
Proof. destruct c as [[] [] [] [] [] [] [] []]; reflexivity. Qed.

Lemma is_space_lower_char c : Py.is_space (Py.lower_char c) = Py.is_space c.
Proof. destruct c as [[] [] [] [] [] [] [] []]; reflexivity. Qed.

Lemma lower_idem s : Py.lower (Py.lower s) = Py.lower s.
Proof. induction s as [|c r IH]; simpl; [done|]. by rewrite lower_char_idem, IH. Qed.

Lemma lower_empty s : Py.lower s = "" <-> s = "".
Proof. destruct s; simpl; split; congruence. Qed.

Lemma str_app_cons c r t : String c r +:+ t = String c (r +:+ t).
Proof. reflexivity. Qed.

Lemma str_app_nil_l t : "" +:+ t = t.
Proof. reflexivity. Qed.

Lemma str_app_nil_r s : s +:+ "" = s.
Proof. induction s as [|c r IH]; [done|]. by rewrite str_app_cons, IH. Qed.

Lemma str_app_assoc s t u : (s +:+ t) +:+ u = s +:+ (t +:+ u).
Proof. induction s as [|c r IH]; [done|]. by rewrite !str_app_cons, IH. Qed.

Lemma lower_app s t : Py.lower (s +:+ t) = Py.lower s +:+ Py.lower t.
Proof.
  induction s as [|c r IH]; [done|].
  rewrite str_app_cons. simpl. by rewrite IH.
Qed.

Lemma lstrip_lower s :
  Py.lstrip_by Py.is_space (Py.lower s) = Py.lower (Py.lstrip_by Py.is_space s).
Proof.
  induction s as [|c r IH]; simpl; [done|].
  rewrite is_space_lower_char. by destruct (Py.is_space c).
Qed.

Lemma rstrip_lower s :
  Py.rstrip_by Py.is_space (Py.lower s) = Py.lower (Py.rstrip_by Py.is_space s).
Proof.
  induction s as [|c r IH]; simpl; [done|].
  rewrite IH, is_space_lower_char.
  destruct (Py.rstrip_by Py.is_space r); simpl; [|done].
  by destruct (Py.is_space c).
Qed.

Lemma strip_lower s : Py.strip (Py.lower s) = Py.lower (Py.strip s).
Proof. unfold Py.strip, Py.strip_by. by rewrite lstrip_lower, rstrip_lower. Qed.

Section StripBy.
Variable p : ascii -> bool.

Lemma rstrip_by_idem s : Py.rstrip_by p (Py.rstrip_by p s) = Py.rstrip_by p s.
Proof.
  induction s as [|c r IH]; simpl; [done|].
  destruct (Py.rstrip_by p r) as [|a r'] eqn:E.
  - destruct (p c) eqn:Ec; simpl; [done|]. by rewrite Ec.
  - simpl in *. by rewrite IH.
Qed.

(** A text that does not start with a stripped character is left alone
    on the left, also after stripping it on the right. *)
Lemma lstrip_by_head c r : p c = false -> Py.lstrip_by p (String c r) = String c r.
Proof. intros E. simpl. by rewrite E. Qed.

Lemma rstrip_by_head c r :
  p c = false -> exists r', Py.rstrip_by p (String c r) = String c r'.
Proof.
  intros E. simpl. destruct (Py.rstrip_by p r); [|eauto].
  rewrite E. eauto.
Qed.

Lemma lstrip_by_cases s :
  Py.lstrip_by p s = "" \/
  exists c r, Py.lstrip_by p s = String c r /\ p c = false.
Proof.
  induction s as [|c r IH]; simpl; [by left|].
  destruct (p c) eqn:E; [done|]. right. eauto.
Qed.

Lemma strip_by_idem s : Py.strip_by p (Py.strip_by p s) = Py.strip_by p s.
Proof.
  unfold Py.strip_by.
  destruct (lstrip_by_cases s) as [->|(c & r & -> & E)]; [done|].
  destruct (rstrip_by_head c r E) as [r' Hr].
  rewrite Hr, (lstrip_by_head c r' E), <- Hr. apply rstrip_by_idem.
Qed.
End StripBy.

Lemma strip_idem s : Py.strip (Py.strip s) = Py.strip s.
Proof. apply strip_by_idem. Qed.

End TextFacts.

(** ** The explanation cache *)

Section ExplanationCache.
Import Db.

Lemma filter_out_then_in {A} (P : A -> Prop) `{!forall x, Decision (P x)} (l : list A) :
  filter P (filter (fun x => ~ P x) l) = [].
Proof.
  induction l as [|x l IH]; [done|].
  rewrite (filter_cons (fun x => ~ P x)).
  destruct (decide (~ P x)) as [Hn|Hn]; [|done].
  rewrite filter_cons. by destruct (decide (P x)).
Qed.

Lemma saved_rows_with_key db n c a e :
  filter (same_key (Py.lower n) (Py.lower c) a)
         (test_explanations (save_test_explanation db n c a e))
  = [{| ex_test_name := Py.lower n; ex_test_context := Py.lower c;
        ex_abnormal_type := a; ex_text := e |}].
Proof.
  unfold save_test_explanation; simpl.
  rewrite filter_app, filter_out_then_in. simpl.
  rewrite filter_cons, filter_nil.
  destruct (decide _) as [|Hn]; [done|]. by destruct Hn.
Qed.

Lemma get_after_save db n c a e :
  get_test_explanation (save_test_explanation db n c a e) n c a = Some e.
Proof. unfold get_test_explanation. by rewrite saved_rows_with_key. Qed.

(** The primary key stays a key: no two rows share it. *)
Lemma save_keeps_keys_distinct db n c a e :
  NoDup (key_of <$> test_explanations db) ->
  NoDup (key_of <$> test_explanations (save_test_explanation db n c a e)).
Proof.
  intros Hnd. unfold save_test_explanation; simpl.
  rewrite fmap_app. apply NoDup_app. split_and!.
  - revert Hnd. generalize (test_explanations db). intros l.
    induction l as [|x l IH]; [done|].
    rewrite fmap_cons, NoDup_cons. intros [Hx Hl].
    rewrite filter_cons. destruct (decide _); [|auto].
    rewrite fmap_cons, NoDup_cons. split; [|auto].
    intros (y & Hy & Hin)%list_elem_of_fmap. apply Hx.
    apply list_elem_of_fmap. exists y. split; [done|].
    by apply list_elem_of_filter in Hin as [_ ?].
  - intros k (y & -> & Hin)%list_elem_of_fmap Hk.
    apply list_elem_of_filter in Hin as [Hy _].
    simpl in Hk. apply list_elem_of_singleton in Hk.
    apply Hy. unfold same_key, key_of in *. by simplify_eq/=.
  - simpl. apply NoDup_singleton.
Qed.

(** C8, as the code has it.  The key is folded on the test name and on
    the context; the abnormal type is compared as given.  For every
    casing of name and context, a put followed by a get of the same
    abnormal type returns the stored text; a later put to the same
    folded key replaces it, one row holds the key, and after a clear the
    get returns nothing. *)
Theorem explanation_key_folds_name_and_context db n c a e n' c' :
  Py.lower n' = Py.lower n ->
  Py.lower c' = Py.lower c ->
  get_test_explanation (save_test_explanation db n c a e) n' c' a = Some e
  /\ (forall e2,
        get_test_explanation
          (save_test_explanation (save_test_explanation db n c a e) n' c' a e2)
          n c a = Some e2)
  /\ length (filter (same_key (Py.lower n) (Py.lower c) a)
               (test_explanations (save_test_explanation db n c a e))) = 1%nat
  /\ get_test_explanation
       (clear_test_explanations (save_test_explanation db n c a e)) n' c' a = None.
Proof.
  intros Hn Hc. split_and!.
  - unfold get_test_explanation. rewrite Hn, Hc. by rewrite saved_rows_with_key.
  - intros e2. unfold get_test_explanation.
    rewrite <- Hn, <- Hc. by rewrite saved_rows_with_key.
  - by rewrite saved_rows_with_key.
  - done.
Qed.

Lemma explanation_key_folds_name_and_context_witness :
  Py.lower "HbA1c" = Py.lower "hba1c"
  /\ Py.lower "Diabetes Panel" = Py.lower "diabetes panel"
  /\ get_test_explanation
       (save_test_explanation init_db "hba1c" "diabetes panel" "high" "text")
       "HbA1c" "Diabetes Panel" "high" = Some "text".
Proof.
  split; [reflexivity|]. split; [reflexivity|].
  apply (explanation_key_folds_name_and_context
           init_db "hba1c" "diabetes panel" "high" "text" "HbA1c" "Diabetes Panel");
    reflexivity.
Defined.

(** C8, as stated, fails: the abnormal type is not folded, so a get with
    another casing of it misses the stored row. *)
Lemma explanation_key_abnormal_type_exact :
  Py.lower "HIGH" = Py.lower "high"
  /\ get_test_explanation
       (save_test_explanation init_db "hba1c" "diabetes panel" "high" "text")
       "hba1c" "diabetes panel" "HIGH" = None.
Proof. split; reflexivity. Qed.

End ExplanationCache.

(** ** The bulk insert *)

Section BulkInsert.
Import Db Stored.
Variable repr : pyval -> string.

Lemma strip_or_text v s :
  str_strip (or_else v (VStr "")) = Ok s ->
  s = Py.strip (match v with VStr x => x | _ => "" end).
Proof.
  unfold or_else. destruct v; simpl; try (destruct (negb _); simpl; congruence);
    try congruence.
  - destruct b; simpl; congruence.
  - destruct (String.eqb_spec s0 ""); simpl; intros; simplify_eq; done.
  - destruct l; simpl; congruence.
Qed.

Lemma field_text_dict d k :
  field_text (VDict d) k = match default VNone (d !! k) with VStr x => x | _ => "" end.
Proof. unfold field_text. by destruct (d !! k) as [[]|]. Qed.

Lemma eqb_empty_false s : (s =? "")%string = false <-> s <> "".
Proof. by destruct (String.eqb_spec s ""). Qed.

Lemma lower_nonempty s : (Py.lower s =? "")%string = (s =? "")%string.
Proof. by destruct s. Qed.

Lemma row_of_spec rid t o :
  row_of repr rid t = Ok o ->
  match o with
  | None => kept repr t = false
  | Some row => kept repr t = true /\ stores repr rid t row /\ filled row /\ normalized row
  end.
Proof.
  destruct t as [| | | | |l|d]; try discriminate.
  unfold row_of, kept, stores, filled, normalized. simpl attr_get. simpl mbind.
  destruct (str_strip (or_else (default VNone (d !! "test_name")) _)) as [n'|] eqn:En;
    [|discriminate].
  destruct (str_strip (or_else (default VNone (d !! "test_context")) _)) as [c'|] eqn:Ec;
    [|discriminate].
  destruct (str_strip (or_else (default VNone (d !! "reference_range")) _)) as [nr|];
    [|discriminate].
  apply strip_or_text in En, Ec. rewrite <- !field_text_dict in En, Ec.
  simpl mbind. unfold shown.
  generalize (py_str repr (or_else (default VNone (d !! "value")) (VStr ""))).
  generalize (py_str repr (or_else (default VNone (d !! "unit")) (VStr ""))).
  revert En Ec.
  generalize (field_text (VDict d) "test_name").
  generalize (field_text (VDict d) "test_context").
  intros c n -> -> u v. rewrite lower_nonempty.
  destruct (Py.strip n =? "")%string eqn:E1; simpl.
  { intros; by simplify_eq. }
  destruct (Py.strip v =? "")%string eqn:E2; simpl.
  { intros; by simplify_eq. }
  destruct (bind_parameter _) as [cid'|]; [|discriminate].
  simpl. intros; simplify_eq. simpl.
  apply eqb_empty_false in E1, E2.
  rewrite !lower_idem, <- !strip_lower, !strip_idem.
  split_and!; try done.
  by rewrite strip_lower, lower_empty.
Qed.

Lemma new_rows_spec rid tests rows :
  new_rows repr rid tests = Ok rows ->
  Forall2 (stores repr rid) (filter (fun t => kept repr t = true) tests) rows
  /\ Forall filled rows /\ Forall normalized rows.
Proof.
  revert rows. induction tests as [|t tests IH]; simpl; intros rows.
  { intros; simplify_eq. by rewrite filter_nil. }
  destruct (row_of repr rid t) as [o|] eqn:Ho; [|discriminate]. simpl.
  destruct (new_rows repr rid tests) as [rows'|]; [|discriminate]. simpl.
  intros; simplify_eq.
  destruct (IH rows' eq_refl) as (H1 & H2 & H3).
  apply row_of_spec in Ho. rewrite filter_cons.
  destruct o as [row|].
  - destruct Ho as (Hk & Hs & Hf & Hn).
    destruct (decide _); [|done]. auto.
  - destruct (decide _); [congruence|]. auto.
Qed.

Lemma insert_spec db rid tests db' :
  insert_test_results repr db rid tests = Ok db' ->
  exists rows,
    test_results db' = (test_results db ++ rows)%list
    /\ Forall2 (stores repr rid) (filter (fun t => kept repr t = true) tests) rows
    /\ Forall filled rows /\ Forall normalized rows.
Proof.
  unfold insert_test_results.
  destruct (new_rows repr rid tests) as [rows|] eqn:E; [|discriminate].
  simpl. intros; simplify_eq. exists rows. split; [done|].
  by apply new_rows_spec.
Qed.


(** An exception in the loop stores nothing, so the filled rows stay the
    only rows whatever the call does. *)
Lemma filled_rows_invariant db rid tests :
  Forall filled (test_results db) ->
  Forall filled (test_results (after db (insert_test_results repr db rid tests))).
Proof.
  intros Hdb. destruct (insert_test_results repr db rid tests) as [db'|] eqn:E; [|done].
  apply insert_spec in E as (rows & Hr & _ & Hf & _). simpl. rewrite Hr.
  by apply Forall_app.
Qed.

(** C10.  The bulk insert itself lower-cases and strips the test name
    and the context and strips value and unit, whatever the casing of
    the entry it is given: every row it adds is normalized, so a table
    of normalized rows stays one, and stored names equal their own
    lower-cased form. *)
Theorem bulk_insert_normalizes db rid tests db' :
  insert_test_results repr db rid tests = Ok db' ->
  Forall normalized (test_results db) ->
  Forall normalized (test_results db')
  /\ Forall (fun row => Py.lower (test_name row) = test_name row) (test_results db')
  /\ exists rows,
       test_results db' = (test_results db ++ rows)%list
       /\ Forall2 (stores repr rid) (filter (fun t => kept repr t = true) tests) rows.
Proof.
  intros (rows & Hr & Hs & _ & Hn)%insert_spec Hdb.
  assert (Forall normalized (test_results db')) as Hall.
  { rewrite Hr. by apply Forall_app. }
  split_and!; [done| |by exists rows].
  eapply Forall_impl; [exact Hall|]. by intros row (? & _).
Qed.
End BulkInsert.

Lemma bulk_insert_normalizes_witness :
  Db.insert_test_results Sample.repr Db.init_db 7 Sample.batch
  = Ok (Db.with_test_results Db.init_db Sample.stored_batch)
  /\ Forall Stored.normalized (Db.test_results Db.init_db)
  /\ Db.test_name <$> Sample.stored_batch = ["total cholesterol"]
  /\ Forall Stored.normalized Sample.stored_batch.
Proof.
  split; [vm_compute; reflexivity|].
  split; [apply Forall_nil_2|].
  split; [reflexivity|].
  apply (bulk_insert_normalizes Sample.repr Db.init_db 7 Sample.batch
           (Db.with_test_results Db.init_db Sample.stored_batch));
    [vm_compute; reflexivity | apply Forall_nil_2].
Defined.

(** ** The range merge *)

Section RangeMerge.
Import App Trace.
Variable extract_tests_from_page : string -> result pyval.
Variable recover_ranges_from_text : string -> gmap (string * string) string.

Local Abbreviation first_pass := (first_pass extract_tests_from_page recover_ranges_from_text).
Local Abbreviation merge_pages := (merge_pages extract_tests_from_page recover_ranges_from_text).
Local Abbreviation observations := (observations extract_tests_from_page recover_ranges_from_text).
Local Abbreviation page_observations :=
  (page_observations extract_tests_from_page recover_ranges_from_text).

Lemma iterate_or_empty v ts :
  iterate v = Ok ts -> iterate (or_else v (VList [])) = Ok ts.
Proof.
  unfold or_else. destruct (truthy v) eqn:E; [done|].
  destruct v; simpl in *; try discriminate.
  - apply negb_false_iff, String.eqb_eq in E. subst. intros; by simplify_eq.
  - destruct l; [done|discriminate].
  - apply negb_false_iff, bool_decide_eq_true in E.
    apply dom_empty_inv_L in E. subst. rewrite map_to_list_empty.
    intros; by simplify_eq.
Qed.

Lemma cache_events_tests recovered cache ts :
  cache_events cache ((fun t => (t, recovered)) <$> ts) = cache_tests recovered cache ts.
Proof.
  revert cache. induction ts as [|t ts IH]; intros cache; simpl; [done|].
  destruct (cache_step recovered cache t); simpl; [apply IH|done].
Qed.

Lemma cache_events_app cache evs1 evs2 :
  cache_events cache (evs1 ++ evs2) = (c ← cache_events cache evs1; cache_events c evs2).
Proof.
  revert cache. induction evs1 as [|[t rec] evs1 IH]; intros cache; simpl; [done|].
  destruct (cache_step rec cache t); simpl; [apply IH|done].
Qed.

Lemma page_step_events st text st' :
  page_step extract_tests_from_page recover_ranges_from_text st text = Ok st' ->
  exists evs,
    page_observations text = Ok evs
    /\ cache_events (range_cache st) evs = Ok (range_cache st')
    /\ all_tests st' = (all_tests st ++ evs.*1)%list.
Proof.
  unfold page_step, Trace.page_observations.
  destruct (text =? "")%string.
  { intros; simplify_eq. exists []. by rewrite app_nil_r. }
  destruct (extract_tests_from_page text) as [pt|]; [|discriminate]. simpl.
  destruct (iterate pt) as [ts|] eqn:Hts; [|discriminate]. simpl.
  destruct (cache_tests _ _ ts) as [c|] eqn:Hc; [|discriminate]. simpl.
  rewrite (iterate_or_empty _ _ Hts). simpl. intros; simplify_eq. simpl.
  eexists. split; [done|]. rewrite cache_events_tests. split; [done|].
  f_equal. rewrite <- list_fmap_compose. simpl. by rewrite list_fmap_id.
Qed.

Lemma first_pass_events texts st st' :
  first_pass st texts = Ok st' ->
  exists evs,
    observations texts = Ok evs
    /\ cache_events (range_cache st) evs = Ok (range_cache st')
    /\ all_tests st' = (all_tests st ++ evs.*1)%list.
Proof.
  revert st. induction texts as [|text texts IH]; intros st; simpl.
  { intros; simplify_eq. exists []. by rewrite app_nil_r. }
  destruct (page_step _ _ st text) as [st1|] eqn:H1; [|discriminate]. simpl.
  intros H2. apply page_step_events in H1 as (evs1 & Ho1 & Hc1 & Ha1).
  apply IH in H2 as (evs2 & Ho2 & Hc2 & Ha2).
  exists (evs1 ++ evs2)%list. rewrite Ho1, Ho2. simpl. split; [done|].
  rewrite cache_events_app, Hc1. simpl. split; [done|].
  by rewrite Ha2, Ha1, fmap_app, app_assoc.
Qed.

Lemma cache_step_supplies recovered cache t k r :
  supplies k r t -> cache_step recovered cache t = Ok (<[k := r]> cache).
Proof.
  intros (Hk & Hr & Ht). unfold cache_step. rewrite Hk. simpl.
  destruct t as [| | | | | |d]; try discriminate. simpl in *.
  destruct (d !! "reference_range") as [x|]; [|discriminate].
  simplify_eq. simpl. by rewrite Ht.
Qed.

Lemma cache_step_lacks recovered cache t k :
  lacks k t ->
  cache_step recovered cache t
  = Ok (match recovered !! k with
        | Some x => <[k := VStr x]> cache
        | None => cache
        end).
Proof.
  intros (Hk & r & Hr & Ht). unfold cache_step. rewrite Hk. simpl.
  rewrite Hr. simpl. rewrite Ht. by destruct (recovered !! k).
Qed.

Lemma cache_step_cases recovered cache t c :
  cache_step recovered cache t = Ok c ->
  exists k, (exists r, supplies k r t) \/ lacks k t.
Proof.
  unfold cache_step. destruct (key_of t) as [k|] eqn:Hk; [|discriminate]. simpl.
  destruct (attr_get t "reference_range" VNone) as [r|] eqn:Hr; [|discriminate]. simpl.
  destruct (truthy r) eqn:Ht.
  - destruct (item t "reference_range") as [r'|] eqn:Hi; [|discriminate].
    intros _. exists k. left. exists r. split; [done|]. split; [|done].
    destruct t as [| | | | | |d]; try discriminate. simpl in *.
    destruct (d !! "reference_range"); by simplify_eq.
  - intros _. exists k. right. split; [done|]. eauto.
Qed.

Lemma supplies_lacks_key k k' r t : supplies k r t -> lacks k' t -> False.
Proof.
  intros (_ & Hr & Ht) (_ & r' & Hr' & Ht').
  destruct t as [| | | | | |d]; try discriminate. simpl in *.
  destruct (d !! "reference_range"); simplify_eq. congruence.
Qed.

(** An entry of the cache is replaced only by an observation of the same
    key; when none of them writes a recovered range, the entry stays the
    range some observation carried. *)
Lemma cache_events_keeps k evs cache cache' v :
  cache_events cache evs = Ok cache' ->
  no_recovered_write k evs ->
  cache !! k = Some v ->
  exists v', cache' !! k = Some v'
    /\ (v' = v \/ exists t recovered, (t, recovered) ∈ evs /\ supplies k v' t).
Proof.
  revert cache v. induction evs as [|[t rec] evs IH]; intros cache v; simpl.
  { intros; simplify_eq. eauto. }
  destruct (cache_step rec cache t) as [c|] eqn:Hs; [|discriminate]. simpl.
  intros Hev Hno Hv.
  assert (no_recovered_write k evs) as Hno'.
  { intros t' rec' Hin. apply Hno. by right. }
  assert (forall v1, c !! k = Some v1 ->
            exists v', cache' !! k = Some v' /\
              (v' = v1 \/ exists t0 rec0, (t0, rec0) ∈ evs /\ supplies k v' t0)) as Hnext.
  { intros v1 Hv1. by apply (IH c v1). }
  destruct (cache_step_cases _ _ _ _ Hs) as [k' [[r Hsup]|Hlack]].
  - rewrite (cache_step_supplies _ _ _ _ _ Hsup) in Hs. simplify_eq.
    destruct (decide (k' = k)) as [->|Hne].
    + destruct (Hnext r) as (v' & Hv' & [->|(t0 & rec0 & Hin & Hs0)]).
      { by rewrite lookup_insert_eq. }
      * exists r. split; [done|]. right. exists t, rec. split; [by left|done].
      * exists v'. split; [done|]. right. exists t0, rec0. split; [by right|done].
    + destruct (Hnext v) as (v' & Hv' & [->|(t0 & rec0 & Hin & Hs0)]).
      { by rewrite lookup_insert_ne. }
      * eauto.
      * exists v'. split; [done|]. right. exists t0, rec0. split; [by right|done].
  - rewrite (cache_step_lacks _ _ _ _ Hlack) in Hs. simplify_eq.
    assert ((match rec !! k' with
             | Some x => <[k' := VStr x]> cache
             | None => cache
             end) !! k = Some v) as Hk.
    { destruct (decide (k' = k)) as [->|Hne].
      - rewrite (Hno t rec); [done|by left|done].
      - destruct (rec !! k'); [by rewrite lookup_insert_ne|done]. }
    destruct (Hnext v Hk) as (v' & Hv' & [->|(t0 & rec0 & Hin & Hs0)]).
    + eauto.
    + exists v'. split; [done|]. right. exists t0, rec0. split; [by right|done].
Qed.

Lemma mapM_result_Forall2 {A B} (f : A -> result B) l l' :
  mapM f l = Ok l' -> Forall2 (fun x y => f x = Ok y) l l'.
Proof.
  revert l'. induction l as [|x l IH]; intros l'; simpl; unfold mret, result_ret.
  { intros; simplify_eq. constructor. }
  destruct (f x) as [y|] eqn:Hy; [|discriminate]. simpl.
  destruct (mapM f l) as [ys|]; [|discriminate]. simpl.
  intros; simplify_eq. constructor; auto.
Qed.

Lemma fill_range_lacks cache t t' k v :
  fill_range cache t = Ok t' -> lacks k t -> cache !! k = Some v ->
  set_item t "reference_range" v = Ok t'.
Proof.
  intros Hf (Hk & r & Hr & Ht) Hv. unfold fill_range in Hf.
  rewrite Hk in Hf. simpl in Hf. rewrite Hr in Hf. simpl in Hf.
  by rewrite Ht, Hv in Hf.
Qed.

(** C1, as the code has it.  An observation that carries a non-empty
    range stores it in the document-wide cache under its key, whatever was
    recovered from its page.  The entry then stays a range carried by an
    observation of that key (this one or a later one) as long as no later
    observation of the key that lacks a range sits on a page whose
    recovery holds the key; the first loop has no other guard.  The second
    pass gives the final entry to every observation of the key that lacks
    a range. *)
Theorem extractor_range_kept_without_later_recovery
    texts st evs1 t recovered evs2 k r :
  merge_pages texts = Ok st ->
  observations texts = Ok (evs1 ++ (t, recovered) :: evs2)%list ->
  supplies k r t ->
  no_recovered_write k evs2 ->
  exists r',
    range_cache st !! k = Some r'
    /\ (r' = r \/ exists t' rec', (t', rec') ∈ evs2 /\ supplies k r' t')
    /\ forall i t2,
         ((evs1 ++ (t, recovered) :: evs2)%list).*1 !! i = Some t2 ->
         lacks k t2 ->
         exists t2', all_tests st !! i = Some t2'
                     /\ set_item t2 "reference_range" r' = Ok t2'.
Proof.
  unfold App.merge_pages. intros Hm Hobs Hsup Hno.
  destruct (first_pass _ texts) as [st1|] eqn:H1; [|discriminate]. simpl in Hm.
  destruct (mapM _ (all_tests st1)) as [filled|] eqn:Hfill; [|discriminate].
  simpl in Hm. simplify_eq. simpl.
  apply first_pass_events in H1 as (evs & Hobs' & Hc & Ha).
  rewrite Hobs in Hobs'. simplify_eq. simpl in Ha.
  simpl in Hc. rewrite cache_events_app in Hc.
  destruct (cache_events ∅ evs1) as [c1|]; [|discriminate].
  cbn [mbind result_bind cache_events] in Hc.
  rewrite (cache_step_supplies _ _ _ _ _ Hsup) in Hc. simpl in Hc.
  destruct (cache_events_keeps k evs2 _ _ r Hc Hno) as (r' & Hr' & Hor).
  { by rewrite lookup_insert_eq. }
  exists r'. split; [done|]. split; [done|].
  intros i t2 Hi Hl. apply mapM_result_Forall2 in Hfill.
  rewrite Ha in Hfill.
  destruct (Forall2_lookup_l _ _ _ _ _ Hfill Hi) as (t2' & Hi' & Hf).
  exists t2'. split; [done|]. by apply (fill_range_lacks (range_cache st1) _ _ k).
Qed.
End RangeMerge.

Lemma extractor_range_kept_without_later_recovery_witness :
  let st := {| App.all_tests := [Sample.reading "182" "100-200";
                                 Sample.reading "171" "100-200"];
               App.range_cache := {[ Sample.cholesterol := VStr "100-200" ]} |} in
  App.merge_pages Sample.extract Recovery.recover_ranges_from_text [Sample.page_one; Sample.page_three]
  = Ok st
  /\ exists r',
       App.range_cache st !! Sample.cholesterol = Some r'
       /\ (r' = VStr "100-200"
           \/ exists t' rec', (t', rec') ∈ [(Sample.reading "171" "", Sample.nothing)]
                              /\ Trace.supplies Sample.cholesterol r' t')
       /\ forall i t2,
            ([] ++ [(Sample.reading "182" "100-200", Sample.nothing);
                    (Sample.reading "171" "", Sample.nothing)])%list.*1 !! i = Some t2 ->
            Trace.lacks Sample.cholesterol t2 ->
            exists t2', App.all_tests st !! i = Some t2'
                        /\ set_item t2 "reference_range" r' = Ok t2'.
Proof.
  intros st. split; [vm_compute; reflexivity|].
  apply (extractor_range_kept_without_later_recovery
           Sample.extract Recovery.recover_ranges_from_text [Sample.page_one; Sample.page_three] st
           [] (Sample.reading "182" "100-200") Sample.nothing [(Sample.reading "171" "", Sample.nothing)]
           Sample.cholesterol (VStr "100-200")).
  - vm_compute; reflexivity.
  - vm_compute; reflexivity.
  - repeat split; vm_compute; reflexivity.
  - intros t rec Hin _. apply list_elem_of_singleton in Hin.
    injection Hin as _ ->. apply lookup_empty.
Defined.

(** C1, as stated, fails.  The first page stores the extractor's range
    for the cholesterol key.  On the second page the same test comes
    without a range and the scan of the page has recovered one for the
    key: the first loop writes the recovered range over the stored one,
    and the second pass fills the observation from it. *)
Lemma extractor_range_overwritten_by_later_recovery :
  App.first_pass Sample.extract Recovery.recover_ranges_from_text
      {| App.all_tests := []; App.range_cache := ∅ |} [Sample.page_one]
  = Ok {| App.all_tests := [Sample.reading "182" "100-200"];
          App.range_cache := {[ Sample.cholesterol := VStr "100-200" ]} |}
  /\ Recovery.recover_ranges_from_text Sample.page_two
     = {[ Sample.cholesterol := "125-200" ]}
  /\ App.merge_pages Sample.extract Recovery.recover_ranges_from_text [Sample.page_one; Sample.page_two]
     = Ok {| App.all_tests := [Sample.reading "182" "100-200";
                               Sample.reading "160" "125-200"];
             App.range_cache := {[ Sample.cholesterol := VStr "125-200" ]} |}.
Proof. repeat split; vm_compute; reflexivity. Qed.

(** ** Comparison of binary64 numbers *)

Section Comparison.

Lemma SFcompare_antisym x y :
  SFcompare y x = CompOpp <$> SFcompare x y.
Proof.
  destruct x as [sx|sx| |sx mx ex], y as [sy|sy| |sy my ey]; simpl;
    try done; try (by destruct sx); try (by destruct sy);
    try (by destruct sx, sy).
  destruct sx, sy; simpl; try done.
  - rewrite (Z.compare_antisym ey ex).
    destruct (ey ?= ex); simpl; try done.
    by rewrite CompOpp_involutive, Pos.compare_cont_antisym.
  - rewrite (Z.compare_antisym ey ex).
    destruct (ey ?= ex); simpl; try done.
    by rewrite Pos.compare_cont_antisym.
Qed.

(** [x < y] excludes [x >= y]. *)
Lemma flt_not_fge x y : Py.flt x y = true -> Py.fge x y = false.
Proof.
  unfold Py.flt, Py.fge, SFltb, SFleb. rewrite (SFcompare_antisym x y).
  by destruct (SFcompare x y) as [[]|].
Qed.

Lemma flt_not_fgt x y : Py.flt x y = true -> Py.fgt x y = false.
Proof.
  unfold Py.flt, Py.fgt, SFltb. rewrite (SFcompare_antisym x y).
  by destruct (SFcompare x y) as [[]|].
Qed.

Lemma SFcompare_lt_trans x y z :
  SFcompare x y = Some Lt -> SFcompare y z = Some Lt -> SFcompare x z = Some Lt.
Proof.
  destruct x as [sx|sx| |sx mx ex], y as [sy|sy| |sy my ey],
           z as [sz|sz| |sz mz ez]; simpl; try done;
    try (destruct sx; simpl; try done); try (destruct sy; simpl; try done);
    try (destruct sz; simpl; try done).
  all: rewrite ?Pos.compare_cont_spec; simpl.
  all: destruct (Z.compare_spec ex ey), (Z.compare_spec ey ez),
         (Z.compare_spec ex ez); try done; try lia; subst.
  all: destruct (Pos.compare_spec mx my), (Pos.compare_spec my mz),
         (Pos.compare_spec mx mz); simpl; try done; try lia.
Qed.

Lemma flt_trans x y z : Py.flt x y = true -> Py.flt y z = true -> Py.flt x z = true.
Proof.
  unfold Py.flt, SFltb.
  destruct (SFcompare x y) as [[]|] eqn:E1; try done.
  destruct (SFcompare y z) as [[]|] eqn:E2; try done.
  by rewrite (SFcompare_lt_trans _ _ _ E1 E2).
Qed.
End Comparison.

(** ** Structured extraction *)

Section Extraction.
Import Extractor.
Variable post : request -> reply.
Variable loads : string -> option pyval.

Lemma extract_without_reply text :
  post (ExtractRequest text) = NoReply ->
  extract_tests_from_page post loads text = Ok (VList []).
Proof. unfold extract_tests_from_page. by intros ->. Qed.

Lemma extract_unparsable_response text d raw :
  post (ExtractRequest text) = Reply (Some (VDict d)) ->
  default (VStr "") (d !! "response") = VStr raw ->
  loads (Py.strip raw) = None ->
  extract_tests_from_page post loads text = Ok (VList []).
Proof.
  unfold extract_tests_from_page, parse_tests. intros -> Hr Hl. simpl.
  rewrite Hr. simpl. by rewrite Hl.
Qed.

(** Whatever the parsed response holds, the second [try] returns. *)
Lemma extract_decoded_body_returns text d raw :
  post (ExtractRequest text) = Reply (Some (VDict d)) ->
  default (VStr "") (d !! "response") = VStr raw ->
  exists tests, extract_tests_from_page post loads text = Ok tests.
Proof.
  unfold extract_tests_from_page. intros -> Hr. simpl. rewrite Hr. simpl. eauto.
Qed.
End Extraction.

(** C9, where the code departs from it.  [res.json()] is evaluated
    between the two [try] blocks: when the service answers with a body
    that is no JSON, the decoding error reaches the caller of
    [extract_tests_from_page] instead of an empty test list. *)
Theorem extraction_raises_on_undecodable_body loads text :
  Extractor.extract_tests_from_page (fun _ => Reply None) loads text
  = Raise JSONDecodeError.
Proof. reflexivity. Qed.

(** The same happens for a JSON body whose [response] is [null]. *)
Lemma extraction_raises_on_null_response loads text :
  Extractor.extract_tests_from_page
    (fun _ => Reply (Some (VDict {[ "response" := VNone ]}))) loads text
  = Raise AttributeError.
Proof. reflexivity. Qed.

(** The matcher decodes the body inside its [try]: the same reply is no
    match there. *)
Lemma matcher_survives_undecodable_body loads new_test et ets :
  (App.ai_match_test_name (fun _ => Reply None) loads new_test (et :: ets)).2
  = Ok None.
Proof. reflexivity. Qed.

(** ** Identity resolution *)

Section Resolution.
Import App Trace.
Variable post : request -> reply.
Variable loads : string -> option pyval.

Local Abbreviation ai_match_test_name := (ai_match_test_name post loads).
Local Abbreviation resolve_test := (resolve_test post loads).
Local Abbreviation matcher_output := (matcher_output post loads).

Lemma is_candidate_spec new_test et b :
  is_candidate new_test et = Ok b -> (b = true <-> compatible new_test et).
Proof.
  unfold is_candidate, compatible.
  destruct (String.eqb_spec (type et) (type new_test)) as [Ht|Ht]; simpl.
  2:{ intros; simplify_eq. split; [done|]. by intros (? & _). }
  destruct (String.eqb_spec (panel et) (panel new_test)) as [Hp|Hp]; simpl.
  2:{ intros; simplify_eq. split; [done|]. by intros (_ & ? & _). }
  destruct (str_lower (unit et)) as [eu|]; [|discriminate]. simpl.
  destruct (str_lower (unit new_test)) as [nu|]; [|discriminate]. simpl.
  intros; simplify_eq. destruct (String.eqb_spec eu nu) as [->|Hne].
  - split; [|done]. intros _. eauto.
  - split; [done|]. intros (_ & _ & u & ? & ?). by simplify_eq.
Qed.

Lemma candidates_of_spec new_test existing candidates :
  candidates_of new_test existing = Ok candidates ->
  forall et, et ∈ candidates <-> et ∈ existing /\ compatible new_test et.
Proof.
  revert candidates. induction existing as [|e existing IH]; intros candidates; simpl.
  { intros; simplify_eq. split; [by intros ?%elem_of_nil|by intros [?%elem_of_nil _]]. }
  destruct (is_candidate new_test e) as [b|] eqn:Hb; [|discriminate]. simpl.
  destruct (candidates_of new_test existing) as [rest|]; [|discriminate]. simpl.
  intros; simplify_eq. apply is_candidate_spec in Hb.
  specialize (IH rest eq_refl et). rewrite elem_of_cons.
  destruct b.
  - rewrite elem_of_cons, IH. split.
    + intros [->|[? ?]]; [split; [by left|by apply Hb]|auto].
    + intros [[->|?] ?]; auto.
  - rewrite IH. split; [intros [? ?]; auto|].
    intros [[->|?] Hc]; [|done]. apply Hb in Hc. done.
Qed.

Lemma accept_spec out m :
  accept out = Ok (Some m) <-> accepted out m.
Proof.
  unfold accept, accepted. destruct out as [| | | | | |d]; simpl;
    try (split; [done|by intros (? & ? & _)]).
  destruct (d !! "match") as [x|] eqn:Hx; simpl.
  2:{ split; [done|]. intros (? & ? & ? & _). by simplify_eq. }
  destruct (truthy x) eqn:Ht.
  2:{ split; [done|]. intros (? & ? & ? & ? & _). simplify_eq. congruence. }
  destruct (is_text "no_match" x) eqn:Hs.
  { split; [done|]. intros (? & ? & ? & ? & ? & _). simplify_eq. congruence. }
  destruct (py_float _) as [f|] eqn:Hf; simpl.
  2:{ split; [done|]. intros (? & ? & ? & ? & ? & ? & ? & _). simplify_eq. congruence. }
  destruct (Py.fge f MATCH_CONFIDENCE_THRESHOLD) eqn:Hge.
  - split.
    + intros; simplify_eq. exists d. split_and!; try done. eauto.
    + intros (? & ? & ? & ? & ? & ? & ? & ?). by simplify_eq.
  - split; [done|].
    intros (? & ? & ? & ? & ? & ? & ? & ?). simplify_eq. congruence.
Qed.

Lemma accept_low_confidence d f :
  py_float (default (VInt 0) (d !! "confidence")) = Ok f ->
  Py.flt f MATCH_CONFIDENCE_THRESHOLD = true ->
  accept (VDict d) = Ok None.
Proof.
  intros Hf Hlt%flt_not_fge. unfold accept. simpl.
  destruct (truthy _); [|done]. destruct (is_text _ _); [done|].
  rewrite Hf. simpl. by rewrite Hlt.
Qed.

Lemma describe_fields n u new_test :
  describe n u = Ok new_test -> name new_test = n /\ unit new_test = u.
Proof.
  unfold describe. destruct (classify_test_type n u); [|discriminate]. simpl.
  destruct (extract_panel n); [|discriminate]. simpl. intros; by simplify_eq.
Qed.

Lemma resolve_test_unfold existing t n u new_test candidates :
  item t "test_name" = Ok n ->
  attr_get t "unit" (VStr "") = Ok u ->
  describe n u = Ok new_test ->
  candidates_of new_test existing = Ok candidates ->
  resolve_test existing t
  = ((ai_match_test_name new_test candidates).1,
     matched ← (ai_match_test_name new_test candidates).2;
     match matched with
     | Some m => if truthy m then set_item t "test_name" m else Ok t
     | None => Ok t
     end).
Proof.
  intros Hn Hu Hd Hc. unfold App.resolve_test. rewrite Hn. simpl.
  rewrite Hu. simpl. rewrite Hd. simpl. rewrite Hc. simpl.
  by destruct (App.ai_match_test_name post loads new_test candidates).
Qed.

Lemma ai_match_spec new_test et ets m :
  (ai_match_test_name new_test (et :: ets)).2 = Ok (Some m) <->
  exists out,
    matcher_output (MatchRequest (name new_test) (name <$> et :: ets)) = Ok out
    /\ accepted out m.
Proof.
  unfold App.ai_match_test_name. simpl.
  destruct (matcher_output _) as [out|] eqn:Ho.
  - rewrite accept_spec. split; [eauto|]. intros (? & ? & ?). by simplify_eq.
  - split; [done|]. intros (? & ? & _). by simplify_eq.
Qed.

(** What follows the [try] is not guarded: an answer that parses but is
    no object, or whose confidence is no number, raises. *)
Lemma accept_raises_outside_try :
  accept (VList []) = Raise AttributeError
  /\ accept (VDict {[ "match" := VStr "hdl cholesterol";
                      "confidence" := VStr "high" ]}) = Raise ValueError.
Proof. split; reflexivity. Qed.

(** C2, as the code has it.  The candidates handed to the matcher are
    exactly the entries of the vocabulary that agree with the new test on
    type, panel and lower-cased unit: an entry that differs in one of them
    is never among them.  When no entry is left the matcher is not called
    and the observation is kept as extracted.  Otherwise one request is
    sent, and the name is replaced only by the name the matcher's accepted
    answer gives; that name is not compared with the candidates. *)
Theorem structural_prefilter existing t n u new_test candidates :
  item t "test_name" = Ok n ->
  attr_get t "unit" (VStr "") = Ok u ->
  describe n u = Ok new_test ->
  candidates_of new_test existing = Ok candidates ->
  (forall et, et ∈ candidates <-> et ∈ existing /\ compatible new_test et)
  /\ (resolve_test existing t).1
     = match candidates with
       | [] => []
       | _ :: _ => [MatchRequest n (name <$> candidates)]
       end
  /\ (candidates = [] -> resolve_test existing t = ([], Ok t))
  /\ (forall t', (resolve_test existing t).2 = Ok t' ->
        t' = t \/
        exists out m,
          matcher_output (MatchRequest n (name <$> candidates)) = Ok out
          /\ accepted out m
          /\ set_item t "test_name" m = Ok t').
Proof.
  intros Hn Hu Hd Hc.
  rewrite (resolve_test_unfold _ _ _ _ _ _ Hn Hu Hd Hc).
  destruct (describe_fields _ _ _ Hd) as [Hname _].
  split_and!.
  - by apply candidates_of_spec.
  - simpl. destruct candidates; [done|]. simpl. by rewrite Hname.
  - by intros ->.
  - intros t'. destruct candidates as [|et ets].
    { simpl. intros; simplify_eq. by left. }
    destruct ((ai_match_test_name new_test (et :: ets)).2) as [[m|]|] eqn:Hm;
      cbn [snd mbind result_bind].
    + apply ai_match_spec in Hm as (out & Ho & Ha).
      rewrite Hname in Ho.
      destruct Ha as (d & -> & Hd' & Ht & Hrest). rewrite Ht.
      intros Hset. right. exists (VDict d), m. split_and!; [done| |done].
      exists d. destruct Hrest. by split_and!.
    + intros; simplify_eq. by left.
    + done.
Qed.

End Resolution.

Lemma structural_prefilter_witness :
  let new_test := {| App.name := VStr "ldl chol"; App.unit := VStr "mg/dL";
                     App.type := "concentration"; App.panel := "lipid" |} in
  App.candidates_of new_test Sample.vocabulary
  = Ok [Sample.on_record "hdl cholesterol" "mg/dl"]
  /\ (App.resolve_test (Sample.post "no_match" "0.0") (Sample.loads "no_match" "0.0")
        Sample.vocabulary Sample.ldl_reading).1
     = [MatchRequest (VStr "ldl chol") [VStr "hdl cholesterol"]].
Proof.
  intros new_test. split; [vm_compute; reflexivity|].
  apply (structural_prefilter (Sample.post "no_match" "0.0") (Sample.loads "no_match" "0.0")
           Sample.vocabulary Sample.ldl_reading (VStr "ldl chol") (VStr "mg/dL")
           new_test [Sample.on_record "hdl cholesterol" "mg/dl"]);
    vm_compute; reflexivity.
Defined.

(** C2, as stated, fails.  The entry for LDL cholesterol in mmol/l differs
    from the new test in its unit and is not among the candidates; the
    matcher answers with that name all the same, and the resolver writes
    it into the observation. *)
Lemma excluded_name_written_by_resolver :
  Sample.on_record "ldl cholesterol" "mmol/l" ∈ Sample.vocabulary
  /\ str_lower (VStr "mmol/l") <> str_lower (VStr "mg/dL")
  /\ App.resolve_test (Sample.post "ldl cholesterol" "0.95")
       (Sample.loads "ldl cholesterol" "0.95") Sample.vocabulary Sample.ldl_reading
     = ([MatchRequest (VStr "ldl chol") [VStr "hdl cholesterol"]],
        Ok (VDict {[ "test_name" := VStr "ldl cholesterol"; "value" := VStr "131";
                     "unit" := VStr "mg/dL" ]})).
Proof.
  split; [|split].
  - apply list_elem_of_In. right. left. reflexivity.
  - vm_compute. discriminate.
  - vm_compute. reflexivity.
Qed.

(** ** Characters of a text *)

Section Characters.
Import Numeral.

Lemma occurs_app c s t : occurs c (s +:+ t) <-> occurs c s \/ occurs c t.
Proof.
  induction s as [|a r IH]; [rewrite str_app_nil_l; simpl; tauto|].
  rewrite str_app_cons. simpl. rewrite IH. tauto.
Qed.

Lemma occurs_lower c s : occurs c s -> occurs (Py.lower_char c) (Py.lower s).
Proof.
  induction s as [|a r IH]; simpl; [done|]. intros [->|H]; [by left|right; auto].
Qed.

Lemma occurs_lower_inv c s :
  occurs c (Py.lower s) -> exists c', occurs c' s /\ Py.lower_char c' = c.
Proof.
  induction s as [|a r IH]; simpl; [done|].
  intros [<-|H]; [eauto|]. destruct (IH H) as (c' & ? & ?). eauto.
Qed.

Lemma prefix_occurs sub s c :
  String.prefix sub s = true -> occurs c sub -> occurs c s.
Proof.
  revert s. induction sub as [|a sub IH]; intros s; [done|].
  destruct s as [|b s]; simpl; [done|]. destruct (ascii_dec a b) as [->|]; [|done].
  intros Hp [->|Hc]; [by left|right; by apply IH].
Qed.

Lemma contains_occurs sub s c :
  Py.contains sub s = true -> occurs c sub -> occurs c s.
Proof.
  induction s as [|b s IH]; simpl.
  - by destruct sub.
  - intros [Hp|Hc]%orb_true_iff Ho.
    + by apply (prefix_occurs sub (String b s)).
    + right. by apply IH.
Qed.

Lemma contains_char_occurs a s :
  Py.contains (String a "") s = true <-> occurs a s.
Proof.
  induction s as [|b s IH]; simpl; [done|].
  rewrite orb_true_iff, IH. destruct (ascii_dec a b) as [->|Hne].
  - destruct s; simpl; tauto.
  - split; [intros [|]; [done|tauto]|]. intros [|]; [congruence|tauto].
Qed.

Section StripChars.
Variable p : ascii -> bool.

Lemma lstrip_by_occurs c s :
  occurs c s -> p c = true \/ occurs c (Py.lstrip_by p s).
Proof.
  induction s as [|a r IH]; simpl; [done|].
  destruct (p a) eqn:E; [|by right]. intros [<-|H]; [by left|auto].
Qed.

Lemma rstrip_by_occurs c s :
  occurs c s -> p c = true \/ occurs c (Py.rstrip_by p s).
Proof.
  induction s as [|a r IH]; simpl; [done|].
  intros [->|H].
  - destruct (Py.rstrip_by p r); [|right; by left].
    destruct (p c) eqn:E; [by left|right; by left].
  - destruct (IH H) as [?|Ho]; [by left|].
    destruct (Py.rstrip_by p r); [done|]. right. by right.
Qed.

Lemma strip_by_occurs c s :
  occurs c s -> p c = true \/ occurs c (Py.strip_by p s).
Proof.
  intros [?|H]%lstrip_by_occurs; [by left|]. by apply rstrip_by_occurs.
Qed.
End StripChars.

Lemma strip_underscores_occurs prev s core c :
  Py.strip_underscores prev s = Some core ->
  occurs c s -> Py.is_underscore c = true \/ occurs c core.
Proof.
  revert prev core. induction s as [|a r IH]; intros prev core; simpl; [done|].
  destruct (Py.is_underscore a) eqn:Ea.
  - destruct (Py.is_digit prev); [|done].
    intros Hs [<-|Ho]; [by left|]. by apply (IH a core).
  - destruct (_ && _); [done|].
    destruct (Py.strip_underscores a r) as [core'|] eqn:Hr; [|done]. simpl.
    intros [= <-] [<-|Ho]; [right; by left|].
    destruct (IH a core' Hr Ho); [by left|right; by right].
Qed.

Lemma span_digits_spec s d t :
  Py.span_digits s = (d, t) -> s = d +:+ t /\ made_of Py.is_digit d.
Proof.
  revert d t. induction s as [|a r IH]; intros d t; simpl.
  { intros [= <- <-]. split; [done|]. by intros c []. }
  destruct (Py.is_digit a) eqn:Ea.
  - destruct (Py.span_digits r) as [d' t'] eqn:Hr. intros [= <- <-].
    destruct (IH d' t' eq_refl) as [-> Hd]. split; [done|].
    intros c [<-|Hc]; [done|by apply Hd].
  - intros [= <- <-]. split; [done|]. by intros c [].
Qed.

Lemma digit_core_char c : Py.is_digit c = true -> core_char c = true.
Proof. unfold core_char. by intros ->. Qed.

Lemma take_sign_spec s neg r :
  Py.take_sign s = (neg, r) ->
  s = r \/ s = String "+" r \/ s = String "-" r.
Proof.
  destruct s as [|c t]; simpl; [intros [= <- <-]; by left|].
  destruct (Ascii.eqb_spec c "+") as [->|]; [intros [= <- <-]; auto|].
  destruct (Ascii.eqb_spec c "-") as [->|]; intros [= <- <-]; auto.
Qed.

Lemma take_sign_chars s neg r :
  Py.take_sign s = (neg, r) -> made_of core_char r -> made_of core_char s.
Proof.
  intros [->|[->| ->]]%take_sign_spec Hr; [done|..]; by intros c [<-|Hc]; auto.
Qed.

Lemma span_all_digits_chars x (d : string) :
  Py.span_digits x = (d, "") -> made_of core_char x.
Proof.
  intros [-> Hd]%span_digits_spec c Hc. rewrite str_app_nil_r in Hc.
  by apply digit_core_char, Hd.
Qed.

Lemma parse_exponent_chars s e :
  Py.parse_exponent s = Some e -> made_of core_char s.
Proof.
  destruct s as [|a r]; simpl; [by intros _ c []|].
  destruct (Ascii.eqb_spec a "e") as [->|]; [|done].
  destruct (Py.take_sign r) as [neg r'] eqn:Hs.
  destruct (Py.span_digits r') as [[|d0 d] [|t0 t]] eqn:Hd; try done.
  intros _ c [<-|Hc]; [done|].
  eapply take_sign_chars; [done| |done]. by eapply span_all_digits_chars.
Qed.

Lemma take_fraction_spec s fp r :
  Py.take_fraction s = (fp, r) ->
  made_of Py.is_digit fp /\ (s = fp +:+ r \/ s = String "." (fp +:+ r)).
Proof.
  destruct s as [|c t]; simpl.
  { intros [= <- <-]. split; [by intros c []|by left]. }
  destruct (Ascii.eqb_spec c ".") as [->|].
  - intros [-> Hd]%span_digits_spec. split; [done|by right].
  - intros [= <- <-]. split; [by intros ? []|by left].
Qed.

Lemma parse_decimal_chars s m e :
  Py.parse_decimal s = Some (m, e) -> made_of core_char s.
Proof.
  unfold Py.parse_decimal.
  destruct (Py.span_digits s) as [ip r1] eqn:H1.
  destruct (Py.take_fraction r1) as [fp r2] eqn:H2.
  destruct (ip +:+ fp); [done|].
  destruct (Py.parse_exponent r2) as [e'|] eqn:H3; [|done]. intros _.
  apply span_digits_spec in H1 as [-> Hip].
  apply take_fraction_spec in H2 as [Hfp Hr1].
  apply parse_exponent_chars in H3.
  intros c [Hc|Hc]%occurs_app; [by apply digit_core_char, Hip|].
  assert (occurs c (fp +:+ r2) -> core_char c = true) as Hrest.
  { intros [?|?]%occurs_app; [by apply digit_core_char, Hfp|by apply H3]. }
  destruct Hr1 as [->| ->]; [auto|]. destruct Hc as [<-|Hc]; [done|auto].
Qed.

Lemma parse_unsigned_chars neg s f :
  Py.parse_unsigned neg s = Some f -> made_of core_char s.
Proof.
  unfold Py.parse_unsigned.
  destruct (String.eqb_spec s "inf") as [->|].
  { intros _ c Hc. simpl in Hc. by destruct Hc as [<-|[<-|[<-|[]]]]. }
  destruct (String.eqb_spec s "infinity") as [->|].
  { intros _ c Hc. simpl in Hc. repeat (destruct Hc as [<-|Hc]; [done|]). done. }
  simpl. destruct (String.eqb_spec s "nan") as [->|].
  { intros _ c Hc. simpl in Hc. by destruct Hc as [<-|[<-|[<-|[]]]]. }
  destruct (Py.parse_decimal s) as [[m e]|] eqn:Hd; [|done].
  intros _. by eapply parse_decimal_chars.
Qed.

Lemma parse_signed_chars s f :
  Py.parse_signed s = Some f -> made_of core_char s.
Proof.
  unfold Py.parse_signed. destruct (Py.take_sign s) as [neg r] eqn:Hs.
  intros H. eapply take_sign_chars; [done|]. by eapply parse_unsigned_chars.
Qed.

Lemma float_space_lower_char c : Py.float_space (Py.lower_char c) = Py.float_space c.
Proof. destruct c as [[] [] [] [] [] [] [] []]; reflexivity. Qed.

(** Every character of a text that [float] accepts is a numeral
    character. *)
Lemma float_chars s f : Py.float s = Some f -> made_of numeral_char s.
Proof.
  unfold Py.float.
  destruct (Py.strip_underscores _ _) as [core|] eqn:Hu; [|done].
  intros Hp%parse_signed_chars c Hc. unfold numeral_char.
  destruct (strip_by_occurs Py.float_space c s Hc) as [->|Hc']; [done|].
  apply occurs_lower in Hc'.
  destruct (strip_underscores_occurs _ _ _ _ Hu Hc') as [Hus|Hcore].
  - assert (Py.is_underscore c = true) as ->; [|by rewrite orb_true_r].
    revert Hus. clear. destruct c as [[] [] [] [] [] [] [] []]; done.
  - rewrite (Hp _ Hcore). by rewrite !orb_true_r.
Qed.

(** The stripped core of an accepted text holds no white space. *)
Lemma float_core_free s f :
  Py.float s = Some f -> free_of Py.float_space (Py.strip_by Py.float_space s).
Proof.
  unfold Py.float.
  destruct (Py.strip_underscores _ _) as [core|] eqn:Hu; [|done].
  intros Hp%parse_signed_chars c Hc.
  apply occurs_lower in Hc.
  destruct (Py.float_space c) eqn:Hsp; [|done]. exfalso.
  destruct (strip_underscores_occurs _ _ _ _ Hu Hc) as [Hus|Hcore].
  - revert Hsp Hus. clear. destruct c as [[] [] [] [] [] [] [] []]; done.
  - apply Hp in Hcore. revert Hsp Hcore. clear.
    destruct c as [[] [] [] [] [] [] [] []]; done.
Qed.
End Characters.

(** ** Stripping and removing characters *)

Section Stripping.
Import Numeral Problems.
Variable p : ascii -> bool.

Lemma made_of_nil : made_of p "".
Proof. by intros c []. Qed.

Lemma made_of_cons c s : made_of p (String c s) <-> p c = true /\ made_of p s.
Proof.
  split.
  - intros H. split; [apply H; by left|]. intros x Hx. apply H. by right.
  - intros [Hc Hs] x [<-|Hx]; auto.
Qed.

Lemma free_of_cons c s : free_of p (String c s) <-> p c = false /\ free_of p s.
Proof.
  split.
  - intros H. split; [apply H; by left|]. intros x Hx. apply H. by right.
  - intros [Hc Hs] x [<-|Hx]; auto.
Qed.

Lemma made_of_app s t : made_of p (s +:+ t) <-> made_of p s /\ made_of p t.
Proof.
  unfold made_of. setoid_rewrite occurs_app. split; [|intros [? ?] c [?|?]; auto].
  intros H. split; intros c Hc; apply H; auto.
Qed.

Lemma free_of_app s t : free_of p (s +:+ t) <-> free_of p s /\ free_of p t.
Proof.
  unfold free_of. setoid_rewrite occurs_app. split; [|intros [? ?] c [?|?]; auto].
  intros H. split; intros c Hc; apply H; auto.
Qed.

Lemma lstrip_by_made w x : made_of p w -> Py.lstrip_by p (w +:+ x) = Py.lstrip_by p x.
Proof.
  induction w as [|c w IH]; [done|]. intros [Hc Hw]%made_of_cons.
  rewrite str_app_cons. simpl. rewrite Hc. auto.
Qed.

Lemma lstrip_by_all w : made_of p w -> Py.lstrip_by p w = "".
Proof.
  induction w as [|c w IH]; [done|]. intros [Hc Hw]%made_of_cons.
  simpl. rewrite Hc. auto.
Qed.

Lemma rstrip_by_all w : made_of p w -> Py.rstrip_by p w = "".
Proof.
  induction w as [|c w IH]; [done|]. intros [Hc Hw]%made_of_cons.
  simpl. by rewrite (IH Hw), Hc.
Qed.

Lemma rstrip_by_free x w :
  free_of p x -> made_of p w -> Py.rstrip_by p (x +:+ w) = x.
Proof.
  intros Hx Hw. induction x as [|c x IH].
  - rewrite str_app_nil_l. by apply rstrip_by_all.
  - apply free_of_cons in Hx as [Hc Hx]. rewrite str_app_cons. simpl.
    rewrite (IH Hx). destruct x; [by rewrite Hc|done].
Qed.

(** White space around a core that holds none is what [strip] removes. *)
Lemma strip_by_sandwich w1 x w2 :
  made_of p w1 -> free_of p x -> made_of p w2 ->
  Py.strip_by p (w1 +:+ x +:+ w2) = x.
Proof.
  intros H1 Hx H2. unfold Py.strip_by. rewrite (lstrip_by_made _ _ H1).
  destruct x as [|c x].
  - rewrite str_app_nil_l, (lstrip_by_all _ H2). done.
  - pose proof Hx as [Hc _]%free_of_cons.
    rewrite str_app_cons. simpl. rewrite Hc. rewrite <- str_app_cons.
    by apply rstrip_by_free.
Qed.

Lemma lstrip_by_split s : exists w, s = w +:+ Py.lstrip_by p s /\ made_of p w.
Proof.
  induction s as [|c s (w & Hs & Hw)]; simpl.
  { exists "". split; [done|apply made_of_nil]. }
  destruct (p c) eqn:Hc.
  - exists (String c w). rewrite str_app_cons, <- Hs. split; [done|].
    by apply made_of_cons.
  - exists "". split; [done|apply made_of_nil].
Qed.

Lemma rstrip_by_split s : exists w, s = Py.rstrip_by p s +:+ w /\ made_of p w.
Proof.
  induction s as [|c s (w & Hs & Hw)]; simpl.
  { exists "". split; [done|apply made_of_nil]. }
  destruct (Py.rstrip_by p s) as [|a r] eqn:Hr.
  - rewrite str_app_nil_l in Hs. subst w. destruct (p c) eqn:Hc.
    + exists (String c s). split; [done|]. by apply made_of_cons.
    + exists s. by rewrite str_app_cons, str_app_nil_l.
  - exists w. rewrite !str_app_cons. rewrite str_app_cons in Hs.
    by rewrite <- Hs.
Qed.

Lemma strip_by_split s :
  exists w1 w2, s = w1 +:+ Py.strip_by p s +:+ w2 /\ made_of p w1 /\ made_of p w2.
Proof.
  destruct (lstrip_by_split s) as (w1 & H1 & Hw1).
  destruct (rstrip_by_split (Py.lstrip_by p s)) as (w2 & H2 & Hw2).
  exists w1, w2. unfold Py.strip_by. by rewrite <- H2, <- H1.
Qed.

Variable q : ascii -> bool.

Lemma remove_chars_app s t :
  remove_chars q (s +:+ t) = remove_chars q s +:+ remove_chars q t.
Proof.
  induction s as [|c s IH]; [done|]. rewrite str_app_cons. simpl.
  destruct (q c); [done|]. by rewrite str_app_cons, IH.
Qed.

Lemma remove_chars_occurs c s : occurs c (remove_chars q s) -> occurs c s.
Proof.
  induction s as [|a s IH]; simpl; [done|].
  destruct (q a); [right; auto|]. intros [?|?]; [by left|right; auto].
Qed.

Lemma remove_chars_kept c s : occurs c s -> q c = false -> occurs c (remove_chars q s).
Proof.
  induction s as [|a s IH]; simpl; [done|].
  intros [->|Hc] Hq.
  - rewrite Hq. by left.
  - destruct (q a); [auto|right; auto].
Qed.

Lemma remove_chars_made s : made_of p s -> made_of p (remove_chars q s).
Proof. intros H c Hc. by apply H, remove_chars_occurs. Qed.

Lemma remove_chars_free s : free_of q s -> remove_chars q s = s.
Proof.
  induction s as [|c s IH]; [done|]. simpl.
  intros H. rewrite (H c); [|by left]. rewrite IH; [done|].
  intros x Hx. apply H. by right.
Qed.
End Stripping.

Section Replacing.
Import Numeral Problems.

Lemma prefix_nil s : String.prefix "" s = true.
Proof. by destruct s. Qed.

Lemma prefix_char a c r :
  String.prefix (String a "") (String c r) = (c =? a)%char.
Proof.
  simpl. rewrite prefix_nil. destruct (ascii_dec a c) as [->|Hne].
  - by rewrite Ascii.eqb_refl.
  - symmetry. apply Ascii.eqb_neq. congruence.
Qed.

(** Replacing a one-character text by nothing removes the character. *)
Lemma replace_char a s :
  Py.replace (String a "") "" s = remove_chars (fun c => (c =? a)%char) s.
Proof.
  unfold Py.replace. induction s as [|c r IH]; [done|].
  cbn [Py.replace_from remove_chars]. rewrite prefix_char.
  destruct (c =? a)%char; simpl.
  - by rewrite str_app_nil_l.
  - by rewrite IH.
Qed.

(** A character that is not in [old] survives the replacement of [old]
    by nothing. *)
Lemma replace_from_keeps old w skip s c :
  old <> "" ->
  ~ occurs c old ->
  String.prefix w s = true ->
  String.length w = skip ->
  (forall x, occurs x w -> occurs x old) ->
  occurs c s ->
  occurs c (Py.replace_from old "" skip s).
Proof.
  intros Hold Hc. revert w skip.
  induction s as [|a r IH]; intros w skip Hp Hl Hw; [done|].
  intros Ho. cbn [Py.replace_from]. destruct skip as [|k].
  - destruct (String.prefix old (String a r)) eqn:Hpre.
    + rewrite str_app_nil_l. destruct old as [|b old']; [done|].
      simpl in Hpre. destruct (ascii_dec b a) as [->|]; [|done].
      destruct Ho as [->|Ho]; [destruct Hc; by left|].
      apply (IH old'); [done|done| |done].
      intros x Hx. by right.
    + destruct Ho as [->|Ho]; [by left|]. right.
      apply (IH ""); [apply prefix_nil|done| |done]. by intros x [].
  - destruct w as [|b w']; [done|]. simpl in Hp, Hl.
    destruct (ascii_dec b a) as [->|]; [|done].
    destruct Ho as [->|Ho]; [destruct Hc; apply Hw; by left|].
    apply (IH w'); [done|congruence| |done].
    intros x Hx. apply Hw. by right.
Qed.

Lemma replace_keeps old s c :
  old <> "" -> ~ occurs c old -> occurs c s -> occurs c (Py.replace old "" s).
Proof.
  intros Hold Hc Ho. unfold Py.replace.
  apply (replace_from_keeps old ""); [done|done|apply prefix_nil|done| |done].
  by intros x [].
Qed.
End Replacing.

(** ** What [float] does not see *)

Section FloatInvariance.
Import Numeral Problems.

Lemma lstrip_float_space_lower s :
  Py.lstrip_by Py.float_space (Py.lower s) = Py.lower (Py.lstrip_by Py.float_space s).
Proof.
  induction s as [|c r IH]; simpl; [done|].
  rewrite float_space_lower_char. by destruct (Py.float_space c).
Qed.

Lemma rstrip_float_space_lower s :
  Py.rstrip_by Py.float_space (Py.lower s) = Py.lower (Py.rstrip_by Py.float_space s).
Proof.
  induction s as [|c r IH]; simpl; [done|].
  rewrite IH, float_space_lower_char.
  destruct (Py.rstrip_by Py.float_space r); simpl; [|done].
  by destruct (Py.float_space c).
Qed.

(** [float] reads letters without regard to case. *)
Lemma float_lower s : Py.float (Py.lower s) = Py.float s.
Proof.
  unfold Py.float, Py.strip_by.
  by rewrite lstrip_float_space_lower, rstrip_float_space_lower, lower_idem.
Qed.

(** Removing the blanks of an accepted text does not change its value. *)
Lemma float_without_blanks s f :
  Py.float s = Some f -> Py.float (Py.replace " " "" s) = Some f.
Proof.
  intros Hf. rewrite <- Hf. rewrite replace_char.
  pose proof (float_core_free s f Hf) as Hfree.
  destruct (strip_by_split Py.float_space s) as (w1 & w2 & Hs & H1 & H2).
  assert (free_of (fun c => (c =? " ")%char) (Py.strip_by Py.float_space s)) as Hb.
  { intros c Hc. apply Hfree in Hc.
    destruct (Ascii.eqb_spec c " ") as [->|]; done. }
  assert (Py.strip_by Py.float_space
            (remove_chars (fun c => (c =? " ")%char) s)
          = Py.strip_by Py.float_space s) as Hcore.
  { rewrite Hs at 1. rewrite !remove_chars_app, (remove_chars_free _ _ Hb).
    apply strip_by_sandwich; [by apply remove_chars_made|done|by apply remove_chars_made]. }
  unfold Py.float. by rewrite Hcore.
Qed.

Lemma to_float_normalized s f :
  Py.float s = Some f -> to_float (Py.replace " " "" (Py.lower s)) = Ok f.
Proof.
  intros Hf. unfold to_float.
  by rewrite (float_without_blanks (Py.lower s) f); [|rewrite float_lower].
Qed.
End FloatInvariance.

(** ** Splitting an interval *)

Section Splitting.
Import Numeral Problems.



Lemma contains_dash_free s : Py.contains "-" s = false <-> free_of dash s.
Proof.
  split.
  - intros H c Hc. unfold dash. destruct (Ascii.eqb_spec c "-") as [->|]; [|done].
    apply contains_char_occurs in Hc. congruence.
  - intros H. destruct (Py.contains "-" s) eqn:E; [|done].
    apply contains_char_occurs in E. by apply H in E.
Qed.

Lemma split_dash_free s : free_of dash s -> Py.split "-" s = [s].
Proof.
  unfold Py.split. induction s as [|c r IH]; [done|].
  intros [Hc Hr]%free_of_cons. cbn [Py.split_from]. rewrite prefix_char.
  unfold dash in Hc. rewrite Hc. by rewrite (IH Hr).
Qed.

Lemma split_interval a b :
  free_of dash a -> free_of dash b -> Py.split "-" (a +:+ "-" +:+ b) = [a; b].
Proof.
  intros Ha Hb. unfold Py.split. induction a as [|c r IH].
  - rewrite str_app_nil_l, str_app_cons, str_app_nil_l.
    cbn [Py.split_from]. rewrite prefix_char. simpl.
    pose proof (split_dash_free b Hb) as Hb'. unfold Py.split in Hb'.
    by rewrite Hb'.
  - apply free_of_cons in Ha as [Hc Hr]. rewrite str_app_cons.
    cbn [Py.split_from]. rewrite prefix_char. unfold dash in Hc. rewrite Hc.
    by rewrite (IH Hr).
Qed.

Lemma contains_interval a b : Py.contains "-" (a +:+ "-" +:+ b) = true.
Proof. apply contains_char_occurs, occurs_app. right. by left. Qed.

(** The pieces of a split hold every character but the dash. *)
Lemma split_dash_occurs s c :
  occurs c s -> c = "-"%char \/ exists piece, piece ∈ Py.split "-" s /\ occurs c piece.
Proof.
  unfold Py.split. induction s as [|a r IH]; [done|].
  cbn [Py.split_from]. rewrite prefix_char.
  intros Ho. destruct (Ascii.eqb_spec a "-") as [->|Hne].
  - destruct Ho as [<-|Ho]; [by left|].
    destruct (IH Ho) as [?|(piece & Hin & Hc)]; [by left|].
    right. exists piece. split; [by right|done].
  - destruct Ho as [->|Ho].
    + right. destruct (Py.split_from "-" 0 r) as [|piece pieces].
      * eexists. split; [by left|by left].
      * eexists. split; [by left|by left].
    + destruct (IH Ho) as [?|(piece & Hin & Hc)]; [by left|]. right.
      destruct (Py.split_from "-" 0 r) as [|piece0 pieces]; [by apply elem_of_nil in Hin|].
      apply elem_of_cons in Hin as [->|Hin].
      * eexists. split; [by left|by right].
      * exists piece. split; [by right|done].
Qed.

Lemma lower_char_dash c : Py.lower_char c = "-"%char -> c = "-"%char.
Proof. destruct c as [[] [] [] [] [] [] [] []]; simpl; try done; discriminate. Qed.

Lemma normalized_dash_free s :
  free_of dash s -> free_of dash (Py.replace " " "" (Py.lower s)).
Proof.
  intros H c Hc. rewrite replace_char in Hc. apply remove_chars_occurs in Hc.
  apply occurs_lower_inv in Hc as (c' & Hc' & <-).
  unfold dash. destruct (Ascii.eqb_spec (Py.lower_char c') "-") as [E|]; [|done].
  apply lower_char_dash in E. subst. by apply H in Hc'.
Qed.

Lemma normalize_interval low high :
  normalize_range (low +:+ "-" +:+ high)
  = Py.replace " " "" (Py.lower low) +:+ "-" +:+ Py.replace " " "" (Py.lower high).
Proof.
  unfold normalize_range. rewrite !replace_char, !lower_app, !remove_chars_app.
  done.
Qed.
End Splitting.

(** ** The abnormality detector *)

Section Detector.
Import Numeral Problems.

Lemma to_float_chars s f : to_float s = Ok f -> made_of numeral_char s.
Proof.
  unfold to_float. destruct (Py.float s) eqn:E; [|done]. intros _.
  by eapply float_chars.
Qed.

(** A range made of numerals and dashes has neither of the one-sided
    shapes. *)
Lemma numerals_have_no_limit_shape rng :
  (forall c, occurs c rng -> c = "-"%char \/ numeral_char c = true) ->
  Py.contains "upto" rng || Py.startswith "<" rng = false
  /\ Py.contains "morethan" rng || Py.startswith ">" rng = false.
Proof.
  intros H.
  assert (forall c, c <> "-"%char -> numeral_char c = false -> ~ occurs c rng) as Hno.
  { intros c Hd Hn Hc. destruct (H c Hc); congruence. }
  split; apply orb_false_iff; split.
  - destruct (Py.contains "upto" rng) eqn:E; [|done].
    destruct (Hno "u"%char); [done|done|]. apply (contains_occurs _ _ _ E). by left.
  - destruct (Py.startswith "<" rng) eqn:E; [|done].
    destruct (Hno "<"%char); [done|done|]. apply (prefix_occurs _ _ _ E). by left.
  - destruct (Py.contains "morethan" rng) eqn:E; [|done].
    destruct (Hno "m"%char); [done|done|]. apply (contains_occurs _ _ _ E). by left.
  - destruct (Py.startswith ">" rng) eqn:E; [|done].
    destruct (Hno ">"%char); [done|done|]. apply (prefix_occurs _ _ _ E). by left.
Qed.

(** When the interval shape applies and does not return, both bounds
    were parsed. *)
Lemma interval_shape_parsed value rng :
  Py.contains "-" rng = true ->
  interval_shape value rng = Ok None ->
  exists low high lo hi,
    Py.split "-" rng = [low; high]
    /\ to_float low = Ok lo /\ to_float high = Ok hi
    /\ Py.flt value lo = false /\ Py.fgt value hi = false.
Proof.
  unfold interval_shape. intros ->.
  destruct (Py.split "-" rng) as [|low [|high [|]]]; try done.
  destruct (to_float low) as [lo|] eqn:Hlo; [|done]. simpl.
  destruct (Py.flt value lo) eqn:E1; [done|].
  destruct (to_float high) as [hi|] eqn:Hhi; [|done]. simpl.
  destruct (Py.fgt value hi) eqn:E2; [done|]. intros _.
  by exists low, high, lo, hi.
Qed.

Lemma interval_fallthrough value rng :
  Py.contains "-" rng = true ->
  interval_shape value rng = Ok None ->
  Py.contains "upto" rng || Py.startswith "<" rng = false
  /\ Py.contains "morethan" rng || Py.startswith ">" rng = false.
Proof.
  intros Hc (low & high & lo & hi & Hs & Hlo & Hhi & _)%interval_shape_parsed; [|done].
  apply numerals_have_no_limit_shape. intros c Ho.
  destruct (split_dash_occurs rng c Ho) as [?|(piece & Hin & Hp)]; [by left|].
  right. rewrite Hs in Hin.
  apply elem_of_cons in Hin as [->|Hin]; [by apply (to_float_chars _ _ Hlo)|].
  apply list_elem_of_singleton in Hin as ->. by apply (to_float_chars _ _ Hhi).
Qed.

Lemma upper_fallthrough value rng :
  upper_shape value rng = Ok None ->
  Py.contains "upto" rng || Py.startswith "<" rng = true ->
  Py.contains "morethan" rng || Py.startswith ">" rng = false.
Proof.
  unfold upper_shape. intros H Hc. rewrite Hc in H.
  destruct (to_float _) as [limit|] eqn:Hl; [|done].
  apply to_float_chars in Hl.
  assert (forall c, numeral_char c = false -> ~ occurs c "upto" -> ~ occurs c "<" ->
                    ~ occurs c rng) as Hno.
  { intros c Hn H1 H2 Ho.
    apply (replace_keeps "upto") in Ho; [|done|done].
    apply (replace_keeps "<") in Ho; [|done|done].
    apply Hl in Ho. congruence. }
  apply orb_false_iff; split.
  - destruct (Py.contains "morethan" rng) eqn:E; [|done].
    destruct (Hno "m"%char); [done| | |].
    + simpl. intros [|[|[|[|]]]]; done.
    + simpl. intros [|]; done.
    + apply (contains_occurs _ _ _ E). by left.
  - destruct (Py.startswith ">" rng) eqn:E; [|done].
    destruct (Hno ">"%char); [done| | |].
    + simpl. intros [|[|[|[|]]]]; done.
    + simpl. intros [|]; done.
    + apply (prefix_occurs _ _ _ E). by left.
Qed.

Lemma shape_without_test value rng :
  (Py.contains "upto" rng || Py.startswith "<" rng = false ->
   upper_shape value rng = Ok None)
  /\ (Py.contains "morethan" rng || Py.startswith ">" rng = false ->
      lower_shape value rng = Ok None)
  /\ (Py.contains "-" rng = false -> interval_shape value rng = Ok None).
Proof.
  unfold upper_shape, lower_shape, interval_shape.
  split_and!; by intros ->.
Qed.

(** The three [if] statements in sequence do what the alternatives of
    the specification do. *)
Lemma sequence_is_first_shape value nr :
  range_body value nr = first_shape_only value (normalize_range nr).
Proof.
  unfold range_body, first_shape_only.
  generalize (normalize_range nr). intros rng.
  destruct (shape_without_test value rng) as (Hu & Hl & Hi).
  destruct (Py.contains "-" rng) eqn:Hd.
  - destruct (interval_shape value rng) as [[lab|]|e] eqn:E; try done.
    destruct (interval_fallthrough value rng Hd E) as [H1 H2].
    unfold or_next. simpl. by rewrite (Hu H1), (Hl H2).
  - rewrite (Hi eq_refl). unfold or_next at 1. simpl.
    destruct (Py.contains "upto" rng || Py.startswith "<" rng) eqn:H1.
    + destruct (upper_shape value rng) as [[lab|]|e] eqn:E; try done.
      unfold or_next. simpl. by rewrite (Hl (upper_fallthrough _ _ E H1)).
    + rewrite (Hu eq_refl). unfold or_next. simpl.
      destruct (Py.contains "morethan" rng || Py.startswith ">" rng) eqn:H2; [done|].
      by rewrite (Hl eq_refl).
Qed.

(** C5.  The three range shapes are tried in their fixed order and the
    first whose test holds decides alone: the detector computes what the
    chain of alternatives computes.  It returns for every input; an
    unparsable or missing value, a missing or empty range, and an error
    raised at any stage of the range parsing all give no label. *)
Theorem first_matching_shape_decides raw_value normal_range :
  get_abnormal_type raw_value normal_range
  = match parse_value raw_value, normal_range with
    | Some value, Some nr =>
        if (nr =? "")%string then None
        else catch (first_shape_only value (normalize_range nr)) None
    | _, _ => None
    end
  /\ (parse_value raw_value = None -> get_abnormal_type raw_value normal_range = None)
  /\ (normal_range = None \/ normal_range = Some "" ->
      get_abnormal_type raw_value normal_range = None)
  /\ (forall value nr,
        parse_value raw_value = Some value -> normal_range = Some nr ->
        raises (first_shape_only value (normalize_range nr)) ->
        get_abnormal_type raw_value normal_range = None).
Proof.
  unfold get_abnormal_type. split_and!.
  - destruct (parse_value raw_value) as [value|]; [|done].
    destruct normal_range as [nr|]; [|done].
    by rewrite sequence_is_first_shape.
  - by intros ->.
  - destruct (parse_value raw_value); [|done]. by intros [->| ->].
  - intros value nr -> -> Hr. rewrite sequence_is_first_shape.
    destruct (nr =? "")%string; [done|].
    by destruct (first_shape_only value (normalize_range nr)).
Qed.
End Detector.

Lemma first_matching_shape_decides_witness :
  Problems.parse_value (Some "n/a") = None
  /\ Problems.get_abnormal_type (Some "n/a") (Some "3.5-5.5") = None.
Proof.
  split; [reflexivity|].
  destruct (first_matching_shape_decides (Some "n/a") (Some "3.5-5.5"))
    as (_ & H & _).
  apply H. reflexivity.
Defined.

Section Interval.
Import Numeral Problems.

Lemma interval_nonempty a b : (a +:+ "-" +:+ b =? "")%string = false.
Proof. apply String.eqb_neq. by destruct a. Qed.

(** The detector on an interval whose bounds hold no dash. *)
Lemma interval_result raw v low high l h :
  parse_value raw = Some v ->
  Py.float low = Some l ->
  Py.float high = Some h ->
  Py.contains "-" low = false ->
  Py.contains "-" high = false ->
  get_abnormal_type raw (Some (low +:+ "-" +:+ high))
  = if Py.flt v l then Some "low"
    else if Py.fgt v h then Some "high" else None.
Proof.
  intros Hv Hl Hh Hdl%contains_dash_free Hdh%contains_dash_free.
  unfold get_abnormal_type. rewrite Hv, interval_nonempty.
  rewrite sequence_is_first_shape, normalize_interval.
  unfold first_shape_only. rewrite contains_interval.
  unfold interval_shape. rewrite contains_interval.
  rewrite split_interval by by apply normalized_dash_free.
  rewrite (to_float_normalized _ _ Hl). simpl.
  destruct (Py.flt v l); [done|].
  rewrite (to_float_normalized _ _ Hh). simpl.
  by destruct (Py.fgt v h).
Qed.

End Interval.

(** C4, as stated, fails: both bounds of [-2-5] are numerals, the first
    is below the second and the value [-3] is below the first, but the
    text splits into three pieces at its dashes and the detector gives no
    label. *)
Lemma interval_with_negative_bound_unlabelled :
  let v := S754_finite true 6755399441055744 (-51) in
  let l := S754_finite true 4503599627370496 (-51) in
  let h := S754_finite false 5629499534213120 (-50) in
  Problems.parse_value (Some "-3") = Some v
  /\ Py.float "-2" = Some l
  /\ Py.float "5" = Some h
  /\ Py.flt l h = true
  /\ Py.flt v l = true
  /\ Problems.get_abnormal_type (Some "-3") (Some "-2-5") = None.
Proof. split_and!; vm_compute; reflexivity. Qed.

(** ** The value parser *)

Section ValueParser.
Import Numeral Problems.

Lemma remove_chars_twice p q s :
  remove_chars q (remove_chars p s) = remove_chars (fun c => p c || q c) s.
Proof.
  induction s as [|c s IH]; [done|]. simpl.
  destruct (p c); simpl; [done|]. destruct (q c); by rewrite IH.
Qed.

(** Every [H] and every [L] is removed, wherever it stands. *)
Lemma flags_removed v :
  Py.replace "L" "" (Py.replace "H" "" v) = remove_chars is_flag v.
Proof. by rewrite !replace_char, remove_chars_twice. Qed.

Lemma remove_chars_all q s : made_of q s -> remove_chars q s = "".
Proof.
  induction s as [|c s IH]; [done|]. intros [Hc Hs]%made_of_cons.
  simpl. rewrite Hc. auto.
Qed.

Section Sides.
Variable p : ascii -> bool.

Lemma lstrip_by_sub c s : occurs c (Py.lstrip_by p s) -> occurs c s.
Proof.
  induction s as [|a s IH]; simpl; [done|].
  destruct (p a); [right; auto|done].
Qed.

Lemma lstrip_by_free s : free_of p s -> Py.lstrip_by p s = s.
Proof. destruct s as [|c s]; [done|]. intros [Hc _]%free_of_cons. simpl. by rewrite Hc. Qed.

Lemma lstrip_by_app_free x y :
  free_of p y -> Py.lstrip_by p (x +:+ y) = Py.lstrip_by p x +:+ y.
Proof.
  intros Hy. induction x as [|c x IH].
  - rewrite !str_app_nil_l. by apply lstrip_by_free.
  - rewrite str_app_cons. simpl. destruct (p c); [done|]. by rewrite str_app_cons.
Qed.

Lemma rstrip_by_app_free x y :
  y <> "" -> free_of p y -> Py.rstrip_by p (x +:+ y) = x +:+ y.
Proof.
  intros Hne Hy. induction x as [|c x IH].
  - rewrite str_app_nil_l. rewrite <- (str_app_nil_r y) at 1.
    apply rstrip_by_free; [done|by intros ? []].
  - rewrite str_app_cons. simpl. rewrite IH.
    destruct (x +:+ y) eqn:E; [|done]. by destruct x, y.
Qed.

Lemma rstrip_by_free_self x : free_of p x -> Py.rstrip_by p x = x.
Proof.
  intros H. rewrite <- (str_app_nil_r x) at 1.
  apply rstrip_by_free; [done|by intros ? []].
Qed.

Lemma lstrip_by_idem s : Py.lstrip_by p (Py.lstrip_by p s) = Py.lstrip_by p s.
Proof.
  destruct (lstrip_by_cases p s) as [->|(c & r & -> & E)]; [done|].
  by apply lstrip_by_head.
Qed.
End Sides.

Lemma flag_is_no_space c : is_flag c = true -> Py.is_space c = false.
Proof.
  unfold is_flag. intros [E|E]%orb_true_iff; apply Ascii.eqb_eq in E; by subst.
Qed.

(** On a text whose flag letters all stand at its end, removing every
    flag and stripping the trailing ones come to the same. *)
Lemma trailing_flags_agree body flags :
  free_of is_flag body -> made_of is_flag flags ->
  parse_value (Some (body +:+ flags)) = parse_value_trailing (Some (body +:+ flags)).
Proof.
  intros Hb Hf. unfold parse_value, parse_value_trailing.
  rewrite flags_removed, remove_chars_app, (remove_chars_free _ _ Hb),
    (remove_chars_all _ _ Hf), str_app_nil_r.
  f_equal.
  assert (free_of is_flag (Py.lstrip_by Py.is_space body)) as Hlb.
  { intros c Hc. by apply Hb, (lstrip_by_sub Py.is_space). }
  destruct flags as [|f fl].
  - rewrite str_app_nil_r.
    assert (free_of is_flag (Py.strip body)) as Hfree.
    { intros c Hc. apply Hlb. unfold Py.strip, Py.strip_by in Hc.
      destruct (rstrip_by_split Py.is_space (Py.lstrip_by Py.is_space body))
        as (w & Hw & _).
      rewrite Hw. apply occurs_app. by left. }
    by rewrite (rstrip_by_free_self is_flag _ Hfree), strip_idem.
  - assert (free_of Py.is_space (String f fl)) as Hsp.
    { intros c Hc. by apply flag_is_no_space, Hf. }
    unfold Py.strip at 3, Py.strip_by.
    rewrite (lstrip_by_app_free _ _ _ Hsp).
    rewrite (rstrip_by_app_free _ _ _) by done.
    rewrite (rstrip_by_free is_flag _ _ Hlb Hf).
    unfold Py.strip, Py.strip_by. by rewrite lstrip_by_idem.
Qed.

(** C6, as the code has it.  The value parser removes every upper-case
    [H] and [L] of the text, wherever it stands, strips the white space
    around what is left and parses it as a floating-point number.  On a
    text whose flag letters all stand at its end this is the stripping of
    trailing flags.  A missing or unparsable value gets no label. *)
Theorem value_parser_removes_every_flag raw :
  parse_value (Some raw) = Py.float (Py.strip (remove_chars is_flag raw))
  /\ (forall body flags,
        raw = body +:+ flags -> free_of is_flag body -> made_of is_flag flags ->
        parse_value (Some raw) = parse_value_trailing (Some raw))
  /\ (forall normal_range,
        parse_value (Some raw) = None ->
        get_abnormal_type (Some raw) normal_range = None)
  /\ (forall normal_range, get_abnormal_type None normal_range = None).
Proof.
  split_and!.
  - unfold parse_value. by rewrite flags_removed.
  - intros body flags -> Hb Hf. by apply trailing_flags_agree.
  - intros nr H. unfold get_abnormal_type. by rewrite H.
  - done.
Qed.
End ValueParser.

Lemma value_parser_removes_every_flag_witness :
  "5.2 H" = "5.2 " +:+ "H"
  /\ Problems.parse_value (Some "5.2 H") = Problems.parse_value_trailing (Some "5.2 H").
Proof.
  split; [reflexivity|].
  destruct (value_parser_removes_every_flag "5.2 H") as (_ & H & _).
  apply (H "5.2 " "H").
  - reflexivity.
  - intros c Hc. simpl in Hc.
    repeat (destruct Hc as [<-|Hc]; [reflexivity|]). destruct Hc.
  - intros c Hc. simpl in Hc.
    repeat (destruct Hc as [<-|Hc]; [reflexivity|]). destruct Hc.
Defined.

(** C6, as stated, fails: a flag letter printed in front of the number is
    removed too, so a text that the stripping of trailing flags leaves
    unparsable is read as a number and labelled. *)
Lemma leading_flag_removed :
  Problems.parse_value (Some "H 6.2") = Py.float "6.2"
  /\ Py.float "6.2" = Some (S754_finite false 6980579422424269 (-50))
  /\ Problems.parse_value_trailing (Some "H 6.2") = None
  /\ Problems.get_abnormal_type (Some "H 6.2") (Some "3.5-5.5") = Some "high".
Proof. split_and!; vm_compute; reflexivity. Qed.

(** Ranges that do not parse get no label. *)
Lemma unparsable_ranges_unlabelled :
  Problems.get_abnormal_type (Some "4.0") (Some "abc-def") = None
  /\ Problems.get_abnormal_type (Some "4.0") (Some "1-2-3") = None
  /\ Problems.get_abnormal_type (Some "4.0") (Some "upto x") = None
  /\ Problems.get_abnormal_type (Some "4.0") (Some "more than y") = None
  /\ Problems.get_abnormal_type (Some "n/a") (Some "3.5-5.5") = None.
Proof. split_and!; vm_compute; reflexivity. Qed.

(** ** Range recovery *)

Section RangeRecovery.
Import Recovery.

Lemma scan_without_heading lines st :
  Forall (fun line => is_heading line = false) lines ->
  st.1 = None ->
  foldl scan_line st lines = st.
Proof.
  intros H. revert st. induction H as [|line lines Hl _ IH]; intros [cur rec] Hst;
    [done|].
  simpl in Hst. subst cur. simpl. rewrite Hl. by apply IH.
Qed.

(** A page without a heading line gives no range. *)
Lemma no_heading_no_range page_text :
  Forall (fun line => is_heading line = false) (clean_lines page_text) ->
  recover_ranges_from_text page_text = ∅.
Proof.
  intros H. unfold recover_ranges_from_text.
  by rewrite (scan_without_heading _ (None, ∅) H).
Qed.

(** The lines [THYROID PROFILE], [TSH] and a result line: neither of the
    first two is a heading, so the interval of the third is not kept. *)
Lemma short_heading_gives_no_range :
  recover_ranges_from_text
    ("THYROID PROFILE" +:+ Sample.nl +:+ "TSH" +:+ Sample.nl
     +:+ "4.5 mIU/mL (0.4-4.5)") = ∅
  /\ recover_ranges_from_text
       ("THYROID STIMULATING HORMONE" +:+ Sample.nl +:+ "4.5 uIU/mL (0.4 - 4.5)")
     = {[ ("thyroid stimulating hormone", "uiu/ml") := "0.4 - 4.5" ]}.
Proof. split; vm_compute; reflexivity. Qed.
End RangeRecovery.

(** ** The whole of an ingestion *)

Section Ingestion.
Variable post : request -> reply.
Variable loads : string -> option pyval.
Variable extract_tests_from_page : string -> result pyval.
Variable recover_ranges_from_text : string -> gmap (string * string) string.
Variable repr : pyval -> string.

(** Whatever the matcher wrote into the observations, the rows an
    ingestion adds are normalized and filled. *)
Lemma process_document_rows db texts patient_name report_id sent db' :
  App.process_document post loads extract_tests_from_page recover_ranges_from_text
    repr db texts patient_name report_id = (sent, Ok db') ->
  exists rows,
    Db.test_results db' = (Db.test_results db ++ rows)%list
    /\ Forall Stored.filled rows /\ Forall Stored.normalized rows.
Proof.
  unfold App.process_document.
  destruct (App.merge_pages _ _ texts) as [st|]; [|done]. simpl.
  destruct (App.get_existing_tests_for_patient db patient_name) as [ex|]; [|done].
  simpl. destruct (App.resolve_tests post loads ex (App.all_tests st)) as [sent' r].
  destruct r as [ts|]; [|done]. simpl. intros [= <- H].
  apply insert_spec in H as (rows & Hr & _ & Hf & Hn). eauto.
Qed.
End Ingestion.

(** ** Patients and reports *)

Section PatientsAndReports.
Import Db Records.

Lemma next_id_above ids x : x ∈ ids -> x < next_id ids.
Proof.
  unfold next_id. induction ids as [|y ids IH]; [by intros ?%elem_of_nil|].
  intros [->|Hx]%elem_of_cons; simpl; [lia|]. specialize (IH Hx). lia.
Qed.

Lemma next_id_fresh ids : next_id ids ∉ ids.
Proof. intros H%next_id_above. lia. Qed.

Lemma next_id_positive ids : 0 < next_id ids.
Proof. unfold next_id. induction ids as [|y ids IH]; simpl; lia. Qed.

Lemma filter_nil_not_elem {A} (P : A -> Prop) `{!forall x, Decision (P x)} l x :
  filter P l = [] -> x ∈ l -> ~ P x.
Proof.
  intros Hf Hx HP. assert (x ∈ filter P l) as Hin by by apply list_elem_of_filter.
  rewrite Hf in Hin. by apply elem_of_nil in Hin.
Qed.

Lemma get_or_create_patient_known db name row rest :
  filter (fun p => patient_name p = name) (patients db) = row :: rest ->
  get_or_create_patient db name = (db, patient_id row)
  /\ row ∈ patients db /\ patient_name row = name.
Proof.
  intros Hf. unfold get_or_create_patient. rewrite Hf. split; [done|].
  assert (row ∈ filter (fun p => patient_name p = name) (patients db)) as Hin.
  { rewrite Hf. by left. }
  by apply list_elem_of_filter in Hin as [? ?].
Qed.

Lemma get_or_create_patient_new db name :
  filter (fun p => patient_name p = name) (patients db) = [] ->
  get_or_create_patient db name
  = (with_patients db
       (patients db ++
        [{| patient_id := next_id (patient_id <$> patients db);
            patient_name := name |}])%list,
     next_id (patient_id <$> patients db)).
Proof. intros Hf. unfold get_or_create_patient. by rewrite Hf. Qed.

(** The row of the name after the call, and what the call leaves alone. *)
Lemma get_or_create_patient_spec db name :
  let db' := (get_or_create_patient db name).1 in
  let id := (get_or_create_patient db name).2 in
  {| patient_id := id; patient_name := name |} ∈ patients db'
  /\ get_or_create_patient db' name = (db', id)
  /\ (exists new, patients db' = (patients db ++ new)%list)
  /\ reports db' = reports db
  /\ test_results db' = test_results db
  /\ test_explanations db' = test_explanations db.
Proof.
  destruct (filter (fun p => patient_name p = name) (patients db))
    as [|row rest] eqn:Hf.
  - rewrite (get_or_create_patient_new db name Hf). simpl.
    set (id := next_id (patient_id <$> patients db)).
    split_and!; try done.
    + apply elem_of_app. right. by left.
    + unfold get_or_create_patient. simpl. rewrite filter_app, Hf. simpl.
      rewrite filter_cons, filter_nil. by destruct (decide _).
    + eauto.
  - destruct (get_or_create_patient_known db name row rest Hf) as (-> & Hin & Hn).
    simpl. split_and!; try done.
    + by destruct row; simplify_eq/=.
    + unfold get_or_create_patient. by rewrite Hf.
    + exists []. by rewrite app_nil_r.
Qed.

Lemma consistent_get_or_create_patient db name :
  consistent db -> consistent (get_or_create_patient db name).1.
Proof.
  intros [H1 H2 H3 H4 H5].
  destruct (filter (fun p => patient_name p = name) (patients db))
    as [|row rest] eqn:Hf.
  - rewrite (get_or_create_patient_new db name Hf). simpl.
    split; simpl; try done.
    + rewrite fmap_app. apply NoDup_app. split_and!; [done| |apply NoDup_singleton].
      intros x Hx ->%list_elem_of_singleton. by apply next_id_fresh in Hx.
    + rewrite fmap_app. apply NoDup_app. split_and!; [done| |apply NoDup_singleton].
      intros x (p & -> & Hp)%list_elem_of_fmap Hn%list_elem_of_singleton.
      by apply (filter_nil_not_elem _ _ _ Hf Hp).
    + intros r Hr. rewrite fmap_app. apply elem_of_app. left. by apply H4.
  - by destruct (get_or_create_patient_known db name row rest Hf) as (-> & _).
Qed.

Lemma consistent_insert_report db pid date src :
  consistent db -> pid ∈ patient_id <$> patients db ->
  consistent (insert_report db pid date src).1.
Proof.
  intros [H1 H2 H3 H4 H5] Hp. split; simpl; try done.
  - rewrite fmap_app. apply NoDup_app. split_and!; [done| |apply NoDup_singleton].
    intros x Hx ->%list_elem_of_singleton. by apply next_id_fresh in Hx.
  - intros r [Hr| ->%list_elem_of_singleton]%elem_of_app; [by apply H4|done].
  - intros t Ht. rewrite fmap_app. apply elem_of_app. left. by apply H5.
Qed.

Lemma consistent_insert_test_results repr db rid tests db' :
  consistent db -> rid ∈ report_id <$> reports db ->
  insert_test_results repr db rid tests = Ok db' ->
  consistent db'.
Proof.
  intros [H1 H2 H3 H4 H5] Hr Hi.
  pose proof Hi as (rows & Hrows & Hs & _)%insert_spec.
  unfold insert_test_results in Hi.
  destruct (new_rows repr rid tests) as [rows'|]; [|done]. simpl in Hi.
  simplify_eq. simpl in *. apply app_inv_head in Hrows as ->.
  split; simpl; try done.
  intros t [Ht|Ht]%elem_of_app; [by apply H5|].
  apply list_elem_of_lookup in Ht as [i Hi].
  destruct (Forall2_lookup_r _ _ _ _ _ Hs Hi) as (e & _ & Hst).
  destruct Hst as (-> & _). done.
Qed.

(** The join of the vocabulary query, row by row. *)
Lemma patient_rows_spec db name pair :
  pair ∈ patient_rows db name <->
  exists t r p,
    t ∈ test_results db /\ r ∈ reports db /\ p ∈ patients db
    /\ report_id r = tr_report t /\ patient_id p = report_patient r
    /\ patient_name p = name /\ pair = (test_name t, unit t).
Proof.
  unfold patient_rows. rewrite elem_of_remove_dups, list_elem_of_bind. split.
  - intros (t & (r & (p & Hpair%list_elem_of_singleton & Hp)%list_elem_of_bind
                   & Hr)%list_elem_of_bind & Ht).
    apply list_elem_of_filter in Hr as [Hr1 Hr2].
    apply list_elem_of_filter in Hp as [[Hp1 Hp2] Hp3].
    by exists t, r, p.
  - intros (t & r & p & Ht & Hr & Hp & H1 & H2 & H3 & ->).
    exists t. split; [|done]. apply list_elem_of_bind. exists r. split.
    + apply list_elem_of_bind. exists p. split; [by left|].
      by apply list_elem_of_filter.
    + by apply list_elem_of_filter.
Qed.

Lemma NoDup_fmap_elem_inj {A B} (f : A -> B) (l : list A) x y :
  NoDup (f <$> l) -> x ∈ l -> y ∈ l -> f x = f y -> x = y.
Proof.
  induction l as [|a l IH]; [by intros _ ?%elem_of_nil|].
  rewrite fmap_cons, NoDup_cons. intros [Ha Hl].
  intros [->|Hx]%elem_of_cons [->|Hy]%elem_of_cons Hf; [done| | |by apply IH].
  - destruct Ha. rewrite Hf. apply list_elem_of_fmap. eauto.
  - destruct Ha. rewrite <- Hf. apply list_elem_of_fmap. eauto.
Qed.

(** What the vocabulary query sees after a patient was found or created,
    a report inserted for it, and rows added under that report. *)
Lemma vocabulary_after_rows db name date src rows db3 n pair :
  consistent db ->
  let p := get_or_create_patient db name in
  let r := insert_report p.1 p.2 date src in
  patients db3 = patients r.1 ->
  reports db3 = reports r.1 ->
  test_results db3 = (test_results r.1 ++ rows)%list ->
  Forall (fun t => tr_report t = r.2) rows ->
  (pair ∈ patient_rows db3 n
   <-> pair ∈ patient_rows db n
       \/ (n = name /\ exists t, t ∈ rows /\ pair = (test_name t, unit t))).
Proof.
  intros Hc p r Hpats Hreps Htests Hrows.
  destruct (get_or_create_patient_spec db name) as (Hp & _ & (newp & Hnewp) & Hr1 & Ht1 & _).
  fold p in Hp, Hnewp, Hr1, Ht1.
  pose proof (consistent_get_or_create_patient db name Hc) as Hc1. fold p in Hc1.
  destruct Hc as [_ _ _ H4 H5].
  set (new_report := {| report_id := r.2; report_patient := p.2;
                        report_date := date; source_file := src |}).
  assert (reports r.1 = (reports db ++ [new_report])%list) as Hreps'.
  { unfold r, new_report. simpl. by rewrite Hr1. }
  rewrite Hreps' in Hreps. clear Hreps'.
  assert (r.2 ∉ (report_id <$> reports db)) as Hfresh.
  { unfold r. simpl. rewrite Hr1. apply next_id_fresh. }
  change (patients r.1) with (patients p.1) in Hpats.
  change (test_results r.1) with (test_results p.1) in Htests.
  rewrite Ht1 in Htests.
  rewrite !patient_rows_spec. rewrite Hreps, Hpats, Htests. split.
  - intros (t & rr & pp & Ht & Hrr & Hpp & E1 & E2 & E3 & ->).
    apply elem_of_app in Ht as [Ht|Ht].
    + left. exists t.
      apply elem_of_app in Hrr as [Hrr|Hrr%list_elem_of_singleton].
      * exists rr. rewrite Hnewp in Hpp.
        apply elem_of_app in Hpp as [Hpp|Hpp]; [by exists pp|].
        exfalso. pose proof (H4 rr Hrr) as (q & Hq & Hqin)%list_elem_of_fmap.
        assert (q ∈ patients p.1) as Hq1. { rewrite Hnewp. apply elem_of_app. by left. }
        assert (pp ∈ patients p.1) as Hp1. { rewrite Hnewp. apply elem_of_app. by right. }
        assert (q = pp) as ->.
        { apply (NoDup_fmap_elem_inj patient_id (patients p.1));
            [apply Hc1|done|done|congruence]. }
        destruct (filter (fun p => patient_name p = name) (patients db))
          as [|row rest] eqn:Hf.
        -- unfold p in Hnewp. rewrite (get_or_create_patient_new db name Hf) in Hnewp.
           simpl in Hnewp. apply app_inv_head in Hnewp. subst newp.
           apply list_elem_of_singleton in Hpp. subst pp.
           apply (next_id_fresh (patient_id <$> patients db)).
           apply list_elem_of_fmap. eexists. split; [|exact Hqin]. done.
        -- unfold p in Hnewp.
           destruct (get_or_create_patient_known db name row rest Hf) as (Hg & _).
           rewrite Hg in Hnewp. simpl in Hnewp.
           rewrite <- (app_nil_r (patients db)) in Hnewp at 1.
           apply app_inv_head in Hnewp. subst newp. by apply elem_of_nil in Hpp.
      * exfalso. subst rr. change (r.2 = tr_report t) in E1. apply Hfresh.
        rewrite E1. by apply H5.
    + right. rewrite Forall_forall in Hrows. pose proof (Hrows t Ht) as Htr.
      assert (rr = new_report) as ->.
      { apply elem_of_app in Hrr as [Hrr|Hrr%list_elem_of_singleton]; [|done].
        exfalso. apply Hfresh. rewrite <- Htr, <- E1.
        apply list_elem_of_fmap. eauto. }
      simpl in E2.
      assert (pp = {| patient_id := p.2; patient_name := name |}) as ->.
      { apply (NoDup_fmap_elem_inj patient_id (patients p.1));
          [apply Hc1|done|done|done]. }
      simpl in E3. split; [done|]. eauto.
  - intros [(t & rr & pp & Ht & Hrr & Hpp & E1 & E2 & E3 & ->)
           |(-> & t & Ht & ->)].
    + exists t, rr, pp. split_and!; try done.
      * apply elem_of_app. by left.
      * apply elem_of_app. by left.
      * rewrite Hnewp. apply elem_of_app. by left.
    + exists t, new_report, {| patient_id := p.2; patient_name := name |}.
      rewrite Forall_forall in Hrows.
      split_and!; try done.
      * apply elem_of_app. by right.
      * apply elem_of_app. right. by left.
      * simpl. symmetry. by apply Hrows.
Qed.

Lemma consistent_after_rows db db3 rid rows :
  consistent db ->
  patients db3 = patients db ->
  reports db3 = reports db ->
  test_results db3 = (test_results db ++ rows)%list ->
  rid ∈ (report_id <$> reports db) ->
  Forall (fun t => tr_report t = rid) rows ->
  consistent db3.
Proof.
  intros [H1 H2 H3 H4 H5] Hp Hr Ht Hrid Hrows.
  split; rewrite ?Hp, ?Hr, ?Ht; try done.
  intros t [Hin|Hin]%elem_of_app; [by apply H5|].
  rewrite Forall_forall in Hrows. by rewrite (Hrows t Hin).
Qed.

Lemma new_rows_report repr rid tests rows :
  new_rows repr rid tests = Ok rows -> Forall (fun t => tr_report t = rid) rows.
Proof.
  intros (Hs & _)%new_rows_spec. apply Forall_forall. intros t Ht.
  apply list_elem_of_lookup in Ht as [i Hi].
  destruct (Forall2_lookup_r _ _ _ _ _ Hs Hi) as (e & _ & Hst).
  by destruct Hst as (-> & _).
Qed.
(** X1.  [get_or_create_patient] returns the id under which the name is
    on record after the call, and a second call with the same name
    returns the same id and changes nothing.  A name already on record
    leaves the database as it was; a new name is appended under an id no
    patient had.  Reports, test results and explanations are not
    touched. *)
Theorem patient_created_once db name :
  let db' := (get_or_create_patient db name).1 in
  let id := (get_or_create_patient db name).2 in
  {| patient_id := id; patient_name := name |} ∈ patients db'
  /\ get_or_create_patient db' name = (db', id)
  /\ ((exists p, p ∈ patients db /\ patient_name p = name) -> db' = db)
  /\ ((forall p, p ∈ patients db -> patient_name p <> name) ->
      patients db' = (patients db ++ [{| patient_id := id; patient_name := name |}])%list
      /\ id ∉ (patient_id <$> patients db))
  /\ reports db' = reports db
  /\ test_results db' = test_results db
  /\ test_explanations db' = test_explanations db.
Proof.
  destruct (get_or_create_patient_spec db name) as (H1 & H2 & _ & H4 & H5 & H6).
  split_and!; try done.
  - intros (p & Hp & Hn).
    destruct (filter (fun p => patient_name p = name) (patients db))
      as [|row rest] eqn:Hf.
    + by destruct (filter_nil_not_elem _ _ _ Hf Hp).
    + by destruct (get_or_create_patient_known db name row rest Hf) as (-> & _).
  - intros Hnew.
    destruct (filter (fun p => patient_name p = name) (patients db))
      as [|row rest] eqn:Hf.
    + rewrite (get_or_create_patient_new db name Hf). simpl.
      split; [done|apply next_id_fresh].
    + destruct (get_or_create_patient_known db name row rest Hf) as (_ & Hin & Hn).
      by destruct (Hnew row Hin).
Qed.
End PatientsAndReports.

(** ** The upload handler *)

Section UploadHandler.
Import Db Records Ingest.
Variable post : request -> reply.
Variable loads : string -> option pyval.
Variable extract_tests_from_page : string -> result pyval.
Variable recover_ranges_from_text : string -> gmap (string * string) string.
Variable repr : pyval -> string.

Local Abbreviation add_document :=
  (Ingest.add_document post loads extract_tests_from_page recover_ranges_from_text repr).

(** The two ways the handler ends once a patient name was found. *)
Lemma add_document_cases db name date src texts :
  name <> "" ->
  let p := get_or_create_patient db name in
  let r := insert_report p.1 p.2 date src in
  exists sent,
    (exists e, add_document db (Some name) date src texts = (r.1, sent, Failed e))
    \/ (exists rows,
          add_document db (Some name) date src texts
          = (with_test_results r.1 (test_results r.1 ++ rows), sent, Added)
          /\ Forall (fun t => tr_report t = r.2) rows
          /\ Forall Stored.filled rows /\ Forall Stored.normalized rows).
Proof.
  intros Hname p r. unfold Ingest.add_document.
  destruct (String.eqb_spec name "") as [|_]; [done|].
  fold p. destruct p as [db1 pid] eqn:Hp. simpl in r.
  fold r. destruct r as [db2 rid] eqn:Hr. simpl.
  unfold App.process_document.
  destruct (App.merge_pages _ _ texts) as [st|e]; simpl; [|exists []; left; eauto].
  destruct (App.get_existing_tests_for_patient db2 name) as [ex|e]; simpl;
    [|exists []; left; eauto].
  destruct (App.resolve_tests post loads ex (App.all_tests st)) as [sent [ts|e]];
    simpl; exists sent; [|left; eauto].
  unfold insert_test_results.
  destruct (new_rows repr rid ts) as [rows|e] eqn:Hn; simpl; [|left; eauto].
  right. exists rows. split; [done|].
  pose proof (new_rows_report _ _ _ _ Hn).
  apply new_rows_spec in Hn as (_ & ? & ?). done.
Qed.

(** X2.  The upload handler keeps the database consistent however it
    ends: ids and patient names stay distinct, every report belongs to
    a patient on record and every test row to a report on record. *)
Theorem upload_keeps_consistency db patient_name report_date source_file texts :
  consistent db ->
  consistent (add_document db patient_name report_date source_file texts).1.1.
Proof.
  intros Hc. destruct patient_name as [name|]; [|done].
  destruct (decide (name = "")) as [->|Hname]; [done|].
  destruct (get_or_create_patient_spec db name) as (Hp & _).
  pose proof (consistent_get_or_create_patient db name Hc) as Hc1.
  set (p := get_or_create_patient db name) in *.
  assert (p.2 ∈ patient_id <$> patients p.1) as Hpid.
  { apply list_elem_of_fmap. eexists. split; [|exact Hp]. done. }
  pose proof (consistent_insert_report p.1 p.2 report_date source_file Hc1 Hpid) as Hc2.
  destruct (add_document_cases db name report_date source_file texts Hname)
    as (sent & [(e & ->)|(rows & -> & Hrid & _)]); [done|].
  fold p in Hrid |- *. set (r := insert_report p.1 p.2 report_date source_file) in *.
  simpl. eapply (consistent_after_rows r.1 _ r.2 rows); try done.
  unfold r. simpl. rewrite fmap_app. apply elem_of_app. right. by left.
Qed.

(** X3.  An upload adds filled, normalized rows at the end of the table
    and changes the vocabulary of the patient it names only: the
    vocabulary query answers for every name what it answered before,
    and for the named patient also the (name, unit) pairs of the added
    rows. *)
Theorem upload_extends_one_vocabulary db patient_name report_date source_file texts :
  consistent db ->
  let db' := (add_document db patient_name report_date source_file texts).1.1 in
  exists rows,
    test_results db' = (test_results db ++ rows)%list
    /\ Forall Stored.filled rows /\ Forall Stored.normalized rows
    /\ forall n pair,
         pair ∈ patient_rows db' n
         <-> pair ∈ patient_rows db n
             \/ (patient_name = Some n
                 /\ exists t, t ∈ rows /\ pair = (test_name t, unit t)).
Proof.
  intros Hc db'.
  assert (exists rows : list test_result, rows = []) as Hnone by eauto.
  assert (db' = db -> exists rows,
    test_results db' = (test_results db ++ rows)%list
    /\ Forall Stored.filled rows /\ Forall Stored.normalized rows
    /\ forall n pair,
         pair ∈ patient_rows db' n
         <-> pair ∈ patient_rows db n
             \/ (patient_name = Some n
                 /\ exists t, t ∈ rows /\ pair = (test_name t, unit t))) as Hsame.
  { intros ->. exists []. rewrite app_nil_r. split_and!; try done.
    intros n pair. split; [by left|].
    by intros [?|(_ & t & ?%elem_of_nil & _)]. }
  destruct patient_name as [name|]; [|by apply Hsame].
  destruct (decide (name = "")) as [->|Hname]; [by apply Hsame|]. clear Hsame Hnone.
  pose proof (fun rows db3 n pair =>
    vocabulary_after_rows db name report_date source_file rows db3 n pair Hc) as Hv.
  simpl in Hv.
  destruct (add_document_cases db name report_date source_file texts Hname)
    as (sent & [(e & Hadd)|(rows & Hadd & Hrid & Hf & Hn)]); cbv zeta in Hadd;
    unfold db'; rewrite Hadd;
    change ((?a, ?b, ?c).1.1) with a.
  - destruct (get_or_create_patient_spec db name) as (_ & _ & _ & _ & Ht1 & _).
    exists []. rewrite app_nil_r. split_and!; try done.
    intros n pair. rewrite (Hv [] _ n pair); try done.
    + split; (intros [?|(? & ?)]; [by left|right; split; [congruence|done]]).
    + by rewrite app_nil_r.
  - destruct (get_or_create_patient_spec db name) as (_ & _ & _ & _ & Ht1 & _).
    exists rows. split_and!; try done.
    + simpl. by rewrite Ht1.
    + intros n pair. rewrite (Hv rows _ n pair); try done.
      split; (intros [?|(? & ?)]; [by left|right; split; [congruence|done]]).
Qed.

(** X4.  When an exception ends the upload, the patient and the report
    are already committed and no test row is: the table of test results
    is as before, and the new report, filed under the named patient, has
    no rows. *)
Theorem failed_upload_leaves_empty_report
    db name report_date source_file texts db' sent e :
  consistent db ->
  add_document db (Some name) report_date source_file texts = (db', sent, Failed e) ->
  test_results db' = test_results db
  /\ exists r p,
       reports db' = (reports db ++ [r])%list
       /\ Db.source_file r = source_file /\ Db.report_date r = report_date
       /\ p ∈ patients db' /\ patient_name p = name
       /\ report_patient r = patient_id p
       /\ forall t, t ∈ test_results db' -> tr_report t <> report_id r.
Proof.
  intros Hc Hadd.
  destruct (decide (name = "")) as [->|Hname]; [done|].
  destruct (get_or_create_patient_spec db name) as (Hp & _ & _ & Hr1 & Ht1 & _).
  destruct (add_document_cases db name report_date source_file texts Hname)
    as (sent' & [(e' & Hadd')|(rows & Hadd' & _)]); cbv zeta in Hadd';
    rewrite Hadd' in Hadd; [|done].
  injection Hadd as <- <- <-. simpl. split; [done|].
  eexists _, _. rewrite Hr1. split_and!; try done.
  intros t Ht Heq. rewrite Ht1 in Ht.
  simpl in Heq.
  apply (next_id_fresh (report_id <$> reports db)).
  rewrite <- Heq. by apply Hc.
Qed.
End UploadHandler.

Lemma init_db_consistent : Records.consistent Db.init_db.
Proof.
  split; simpl; try apply NoDup_nil_2; by intros ? ?%elem_of_nil.
Qed.

Lemma upload_keeps_consistency_witness :
  Records.consistent Db.init_db
  /\ Records.consistent
       (Ingest.add_document (Sample.post "hdl cholesterol" "0.95")
          (Sample.loads "hdl cholesterol" "0.95") Sample.extract
          Upload.nothing_recovered Sample.repr Db.init_db (Some "Asha Rao") None
          "report.pdf" [Sample.page_one]).1.1.
Proof.
  split; [apply init_db_consistent|].
  apply upload_keeps_consistency, init_db_consistent.
Defined.

Lemma upload_extends_one_vocabulary_witness :
  Records.consistent Db.init_db
  /\ exists rows,
       Db.test_results
         (Ingest.add_document (Sample.post "hdl cholesterol" "0.95")
            (Sample.loads "hdl cholesterol" "0.95") Sample.extract
            Upload.nothing_recovered Sample.repr Db.init_db (Some "Asha Rao") None
            "report.pdf" [Sample.page_one]).1.1
       = (Db.test_results Db.init_db ++ rows)%list
       /\ Forall Stored.filled rows /\ Forall Stored.normalized rows
       /\ forall n pair,
            pair ∈ Db.patient_rows
                     (Ingest.add_document (Sample.post "hdl cholesterol" "0.95")
                        (Sample.loads "hdl cholesterol" "0.95") Sample.extract
                        Upload.nothing_recovered Sample.repr Db.init_db
                        (Some "Asha Rao") None "report.pdf" [Sample.page_one]).1.1 n
            <-> pair ∈ Db.patient_rows Db.init_db n
                \/ (Some "Asha Rao" = Some n
                    /\ exists t, t ∈ rows /\ pair = (Db.test_name t, Db.unit t)).
Proof.
  split; [apply init_db_consistent|].
  apply (upload_extends_one_vocabulary (Sample.post "hdl cholesterol" "0.95")
           (Sample.loads "hdl cholesterol" "0.95") Sample.extract
           Upload.nothing_recovered Sample.repr Db.init_db (Some "Asha Rao") None
           "report.pdf" [Sample.page_one]), init_db_consistent.
Defined.

Lemma failed_upload_leaves_empty_report_witness :
  Records.consistent Db.init_db
  /\ Ingest.add_document Upload.garbled Upload.no_json
       (Extractor.extract_tests_from_page Upload.garbled Upload.no_json)
       Upload.nothing_recovered Sample.repr Db.init_db (Some "Asha Rao") None
       "report.pdf" [Sample.page_one]
     = (Upload.empty_report, [], Ingest.Failed JSONDecodeError)
  /\ Db.test_results Upload.empty_report = Db.test_results Db.init_db
  /\ exists r p,
       Db.reports Upload.empty_report = (Db.reports Db.init_db ++ [r])%list
       /\ Db.source_file r = "report.pdf" /\ Db.report_date r = None
       /\ p ∈ Db.patients Upload.empty_report /\ Db.patient_name p = "Asha Rao"
       /\ Db.report_patient r = Db.patient_id p
       /\ forall t, t ∈ Db.test_results Upload.empty_report
                    -> Db.tr_report t <> Db.report_id r.
Proof.
  assert (Ingest.add_document Upload.garbled Upload.no_json
       (Extractor.extract_tests_from_page Upload.garbled Upload.no_json)
       Upload.nothing_recovered Sample.repr Db.init_db (Some "Asha Rao") None
       "report.pdf" [Sample.page_one]
     = (Upload.empty_report, [], Ingest.Failed JSONDecodeError)) as Hadd
    by (vm_compute; reflexivity).
  split; [apply init_db_consistent|]. split; [exact Hadd|].
  exact (failed_upload_leaves_empty_report _ _ _ _ _ _ _ _ _ _ _ _ _
           init_db_consistent Hadd).
Defined.

(** ** Range texts with a further dash *)

Section FurtherDash.
Import Numeral Problems.

Lemma split_from_nonempty sep skip s : Py.split_from sep skip s <> [].
Proof.
  revert skip. induction s as [|c r IH]; intros skip; [done|].
  cbn [Py.split_from]. destruct skip as [|k]; [|apply IH].
  destruct (String.prefix sep (String c r)); [done|].
  by destruct (Py.split_from sep 0 r).
Qed.

Lemma split_cons_length c r :
  length (Py.split "-" (String c r))
  = if (c =? "-")%char then S (length (Py.split "-" r)) else length (Py.split "-" r).
Proof.
  unfold Py.split. cbn [Py.split_from]. rewrite prefix_char.
  destruct (c =? "-")%char; [reflexivity|].
  pose proof (split_from_nonempty "-" 0 r).
  by destruct (Py.split_from "-" 0 r).
Qed.

Lemma split_app_length a b :
  (length (Py.split "-" (a +:+ b)) + 1
   = length (Py.split "-" a) + length (Py.split "-" b))%nat.
Proof.
  induction a as [|c r IH].
  - rewrite str_app_nil_l. simpl. lia.
  - rewrite str_app_cons, !split_cons_length. destruct (c =? "-")%char; simpl; lia.
Qed.

Lemma split_length_positive s : (1 <= length (Py.split "-" s))%nat.
Proof.
  induction s as [|c r IH]; [simpl; lia|].
  rewrite split_cons_length. destruct (c =? "-")%char; lia.
Qed.

Lemma split_length_dash s :
  Py.contains "-" s = true -> (2 <= length (Py.split "-" s))%nat.
Proof.
  intros H%contains_char_occurs. induction s as [|c r IH]; [done|].
  rewrite split_cons_length. pose proof (split_length_positive r).
  destruct (Ascii.eqb_spec c "-") as [->|Hne]; [lia|].
  destruct H as [?|H]; [done|]. by apply IH.
Qed.

Lemma normalized_keeps_dash s :
  Py.contains "-" s = true -> Py.contains "-" (Py.replace " " "" (Py.lower s)) = true.
Proof.
  intros H%contains_char_occurs. apply contains_char_occurs.
  apply replace_keeps; [done| |].
  - simpl. intros [?|[]]. discriminate.
  - by apply (occurs_lower "-"%char).
Qed.

(** More than two pieces: the unpacking raises. *)
Lemma interval_shape_many_pieces v rng :
  Py.contains "-" rng = true ->
  (3 <= length (Py.split "-" rng))%nat ->
  interval_shape v rng = Raise ValueError.
Proof.
  intros Hc Hlen. unfold interval_shape. rewrite Hc.
  destruct (Py.split "-" rng) as [|x [|y [|z rest]]]; simpl in Hlen; try lia. done.
Qed.

Lemma further_dash_unlabelled raw low high :
  Py.contains "-" low = true \/ Py.contains "-" high = true ->
  get_abnormal_type raw (Some (low +:+ "-" +:+ high)) = None.
Proof.
  intros Hd. unfold get_abnormal_type.
  destruct (parse_value raw) as [v|]; [|done].
  rewrite interval_nonempty. unfold range_body.
  rewrite normalize_interval.
  set (a := Py.replace " " "" (Py.lower low)).
  set (b := Py.replace " " "" (Py.lower high)).
  rewrite interval_shape_many_pieces; [done|apply contains_interval|].
  pose proof (split_app_length a ("-" +:+ b)) as H1.
  assert (length (Py.split "-" ("-" +:+ b)) = S (length (Py.split "-" b))) as H2.
  { change ("-" +:+ b) with (String "-" b). by rewrite split_cons_length. }
  pose proof (split_length_positive a). pose proof (split_length_positive b).
  destruct Hd as [Hd|Hd]; apply normalized_keeps_dash, split_length_dash in Hd;
    fold a in Hd; fold b in Hd; lia.
Qed.

(** C4, as the code has it.  For a range text [low-high] whose two
    bounds are numerals that hold no dash (no sign, no negative exponent),
    with [low < high], and a parseable value [v]: the detector answers
    [low] exactly when [v < low], [high] exactly when [v > high], and
    nothing otherwise; a value equal to a bound gets no label.  When one
    of the two bound texts holds a further dash, whatever else it holds,
    the range text splits into more than two pieces and the detector
    gives no label for any value. *)
Theorem interval_classification raw low high :
  (Py.contains "-" low = false ->
   Py.contains "-" high = false ->
   forall v l h,
     parse_value raw = Some v ->
     Py.float low = Some l ->
     Py.float high = Some h ->
     Py.flt l h = true ->
     (get_abnormal_type raw (Some (low +:+ "-" +:+ high)) = Some "low"
      <-> Py.flt v l = true)
     /\ (get_abnormal_type raw (Some (low +:+ "-" +:+ high)) = Some "high"
         <-> Py.fgt v h = true)
     /\ (get_abnormal_type raw (Some (low +:+ "-" +:+ high)) = None
         <-> Py.flt v l = false /\ Py.fgt v h = false))
  /\ (Py.contains "-" low = true \/ Py.contains "-" high = true ->
      get_abnormal_type raw (Some (low +:+ "-" +:+ high)) = None).
Proof.
  split; [|apply further_dash_unlabelled].
  intros Hdl Hdh v l h Hv Hl Hh Hlt.
  rewrite (interval_result raw v low high l h Hv Hl Hh Hdl Hdh).
  destruct (Py.flt v l) eqn:E1.
  - assert (Py.fgt v h = false) as E2.
    { apply flt_not_fgt. by apply (flt_trans v l h). }
    rewrite E2. split_and!; split; try done. by intros [? _].
  - destruct (Py.fgt v h) eqn:E2; split_and!; split; try done. by intros [_ ?].
Qed.
End FurtherDash.

Lemma interval_classification_witness :
  Problems.parse_value (Some "6.2") = Py.float "6.2"
  /\ Py.contains "-" "3.5" = false
  /\ Py.contains "-" "5.5" = false
  /\ (Problems.get_abnormal_type (Some "6.2") (Some "3.5-5.5") = Some "high"
      <-> Py.fgt (default S754_nan (Py.float "6.2"))
                 (default S754_nan (Py.float "5.5")) = true)
  /\ (Py.contains "-" "1e-3" = true \/ Py.contains "-" "5.5" = true)
  /\ Problems.get_abnormal_type (Some "6.2") (Some ("1e-3" +:+ "-" +:+ "5.5")) = None.
Proof.
  split; [reflexivity|]. split; [reflexivity|]. split; [reflexivity|].
  split.
  - destruct (interval_classification (Some "6.2") "3.5" "5.5") as (H & _).
    apply (H eq_refl eq_refl (default S754_nan (Py.float "6.2"))
             (default S754_nan (Py.float "3.5"))
             (default S754_nan (Py.float "5.5")));
      vm_compute; reflexivity.
  - split; [left; reflexivity|].
    destruct (interval_classification (Some "6.2") "1e-3" "5.5") as (_ & H).
    apply H. left. reflexivity.
Defined.

(** ** The confidence gate *)

Section ConfidenceGate.
Import App Trace.
Variable post : request -> reply.
Variable loads : string -> option pyval.

Local Abbreviation ai_match_test_name := (ai_match_test_name post loads).
Local Abbreviation resolve_test := (resolve_test post loads).
Local Abbreviation matcher_output := (matcher_output post loads).

(** The threshold is the binary64 number the literal [0.9] denotes. *)
Lemma threshold_is_nine_tenths : Py.float "0.9" = Some MATCH_CONFIDENCE_THRESHOLD.
Proof. vm_compute. reflexivity. Qed.

Lemma fge_threshold_refl :
  Py.fge MATCH_CONFIDENCE_THRESHOLD MATCH_CONFIDENCE_THRESHOLD = true.
Proof. vm_compute. reflexivity. Qed.

(** C3.  With candidates at hand, the matcher's answer replaces the name
    if and only if it parses as structured output whose [match] is
    non-empty and not [no_match] and whose confidence is at least 0.9;
    then the name becomes that [match], otherwise the observation is kept
    as extracted.  The gate is the number the literal [0.9] denotes: an
    answer whose confidence is that number passes it, and an answer
    whose confidence is below it leaves the observation as extracted. *)
Theorem rewrite_iff_accepted existing t n u new_test et ets :
  item t "test_name" = Ok n ->
  attr_get t "unit" (VStr "") = Ok u ->
  describe n u = Ok new_test ->
  candidates_of new_test existing = Ok (et :: ets) ->
  (forall m,
     (ai_match_test_name new_test (et :: ets)).2 = Ok (Some m) <->
     exists out,
       matcher_output (MatchRequest n (name <$> et :: ets)) = Ok out
       /\ accepted out m)
  /\ (forall m,
        (ai_match_test_name new_test (et :: ets)).2 = Ok (Some m) ->
        (resolve_test existing t).2 = set_item t "test_name" m)
  /\ ((ai_match_test_name new_test (et :: ets)).2 = Ok None ->
      (resolve_test existing t).2 = Ok t)
  /\ (forall d f,
        matcher_output (MatchRequest n (name <$> et :: ets)) = Ok (VDict d) ->
        py_float (default (VInt 0) (d !! "confidence")) = Ok f ->
        Py.flt f MATCH_CONFIDENCE_THRESHOLD = true ->
        (resolve_test existing t).2 = Ok t)
  /\ Py.float "0.9" = Some MATCH_CONFIDENCE_THRESHOLD
  /\ (forall m,
        (ai_match_test_name new_test (et :: ets)).2 = Ok (Some m) <->
        exists d f nine_tenths,
          matcher_output (MatchRequest n (name <$> et :: ets)) = Ok (VDict d)
          /\ d !! "match" = Some m
          /\ truthy m = true
          /\ is_text "no_match" m = false
          /\ py_float (default (VInt 0) (d !! "confidence")) = Ok f
          /\ Py.float "0.9" = Some nine_tenths
          /\ Py.fge f nine_tenths = true)
  /\ (forall d m f,
        matcher_output (MatchRequest n (name <$> et :: ets)) = Ok (VDict d) ->
        d !! "match" = Some m ->
        truthy m = true ->
        is_text "no_match" m = false ->
        py_float (default (VInt 0) (d !! "confidence")) = Ok f ->
        Py.float "0.9" = Some f ->
        (resolve_test existing t).2 = set_item t "test_name" m)
  /\ (forall d f nine_tenths,
        matcher_output (MatchRequest n (name <$> et :: ets)) = Ok (VDict d) ->
        py_float (default (VInt 0) (d !! "confidence")) = Ok f ->
        Py.float "0.9" = Some nine_tenths ->
        Py.flt f nine_tenths = true ->
        (resolve_test existing t).2 = Ok t).
Proof.
  intros Hn Hu Hd Hc.
  rewrite (resolve_test_unfold _ _ _ _ _ _ _ _ Hn Hu Hd Hc).
  destruct (describe_fields _ _ _ Hd) as [Hname _].
  assert (forall m,
    (ai_match_test_name new_test (et :: ets)).2 = Ok (Some m) <->
    exists d f nine_tenths,
      matcher_output (MatchRequest n (name <$> et :: ets)) = Ok (VDict d)
      /\ d !! "match" = Some m
      /\ truthy m = true
      /\ is_text "no_match" m = false
      /\ py_float (default (VInt 0) (d !! "confidence")) = Ok f
      /\ Py.float "0.9" = Some nine_tenths
      /\ Py.fge f nine_tenths = true) as Hgate.
  { intros m. rewrite ai_match_spec, Hname. split.
    - intros (out & Ho & d & -> & Hm & Ht & Hs & f & Hf & Hge).
      exists d, f, MATCH_CONFIDENCE_THRESHOLD.
      split_and!; try done; apply threshold_is_nine_tenths.
    - intros (d & f & nt & Ho & Hm & Ht & Hs & Hf & Hnt & Hge).
      rewrite threshold_is_nine_tenths in Hnt. injection Hnt as <-.
      exists (VDict d). split; [done|]. exists d. split_and!; try done. eauto. }
  assert (forall d f,
    matcher_output (MatchRequest n (name <$> et :: ets)) = Ok (VDict d) ->
    py_float (default (VInt 0) (d !! "confidence")) = Ok f ->
    Py.flt f MATCH_CONFIDENCE_THRESHOLD = true ->
    (ai_match_test_name new_test (et :: ets)).2 = Ok None) as Hlow.
  { intros d f Ho Hf Hlt.
    unfold App.ai_match_test_name. cbv beta iota zeta. cbn [snd].
    rewrite Hname, Ho. by apply accept_low_confidence with f. }
  split_and!.
  - intros m. rewrite ai_match_spec. by rewrite Hname.
  - intros m Hm. cbn [snd]. rewrite Hm. cbn [mbind result_bind].
    apply ai_match_spec in Hm as (out & _ & (d & _ & _ & -> & _)). done.
  - intros Hm. cbn [snd]. by rewrite Hm.
  - intros d f Ho Hf Hlt. cbn [snd]. by rewrite (Hlow d f Ho Hf Hlt).
  - apply threshold_is_nine_tenths.
  - exact Hgate.
  - intros d m f Ho Hm Ht Hs Hf Hnt.
    assert ((ai_match_test_name new_test (et :: ets)).2 = Ok (Some m)) as Hacc.
    { apply Hgate. exists d, f, f. split_and!; try done.
      rewrite threshold_is_nine_tenths in Hnt. injection Hnt as <-.
      apply fge_threshold_refl. }
    cbn [snd]. rewrite Hacc. cbn [mbind result_bind]. by rewrite Ht.
  - intros d f nt Ho Hf Hnt Hlt.
    rewrite threshold_is_nine_tenths in Hnt. injection Hnt as <-.
    cbn [snd]. by rewrite (Hlow d f Ho Hf Hlt).
Qed.
End ConfidenceGate.

Lemma rewrite_iff_accepted_witness :
  let new_test := {| App.name := VStr "cholesterol total"; App.unit := VStr "mg/dL";
                     App.type := "concentration"; App.panel := "lipid" |} in
  let existing := [Sample.on_record "total cholesterol" "mg/dl"] in
  App.candidates_of new_test existing = Ok existing
  /\ Py.float "0.9" = Some App.MATCH_CONFIDENCE_THRESHOLD
  /\ (App.resolve_test (Sample.post "Total Cholesterol" "0.9")
        (Sample.loads "Total Cholesterol" "0.9") existing Sample.cholesterol_reading).2
     = set_item Sample.cholesterol_reading "test_name" (VStr "Total Cholesterol")
  /\ (App.resolve_test (Sample.post "Total Cholesterol" "0.8999999999999999")
        (Sample.loads "Total Cholesterol" "0.8999999999999999") existing
        Sample.cholesterol_reading).2
     = Ok Sample.cholesterol_reading.
Proof.
  intros new_test existing.
  split; [vm_compute; reflexivity|].
  destruct (rewrite_iff_accepted (Sample.post "Total Cholesterol" "0.9")
              (Sample.loads "Total Cholesterol" "0.9") existing
              Sample.cholesterol_reading
              (VStr "cholesterol total") (VStr "mg/dL") new_test
              (Sample.on_record "total cholesterol" "mg/dl") []
              eq_refl eq_refl eq_refl eq_refl)
    as (_ & _ & _ & _ & Hpin & _ & Hat & _).
  destruct (rewrite_iff_accepted (Sample.post "Total Cholesterol" "0.8999999999999999")
              (Sample.loads "Total Cholesterol" "0.8999999999999999") existing
              Sample.cholesterol_reading
              (VStr "cholesterol total") (VStr "mg/dL") new_test
              (Sample.on_record "total cholesterol" "mg/dl") []
              eq_refl eq_refl eq_refl eq_refl)
    as (_ & _ & _ & _ & _ & _ & _ & Hbelow).
  split; [exact Hpin|]. split.
  - apply (Hat {[ "match" := VStr "Total Cholesterol";
                  "confidence" := VFloat (default S754_nan (Py.float "0.9")) ]}
             (VStr "Total Cholesterol") App.MATCH_CONFIDENCE_THRESHOLD);
      vm_compute; reflexivity.
  - apply (Hbelow {[ "match" := VStr "Total Cholesterol";
                     "confidence" :=
                       VFloat (default S754_nan (Py.float "0.8999999999999999")) ]}
             (default S754_nan (Py.float "0.8999999999999999"))
             App.MATCH_CONFIDENCE_THRESHOLD);
      vm_compute; reflexivity.
Defined.

(** ** The entries the bulk insert persists *)

Section PersistedEntries.
Import Db Stored.
Variable repr : pyval -> string.











End PersistedEntries.



(** ** Explanations under other keys, and the canonical registry *)

Section Registry.
Import Db.

Lemma filter_under_other_key {A} (P Q : A -> Prop)
    `{!forall x, Decision (P x)} `{!forall x, Decision (Q x)} (l : list A) :
  (forall x, Q x -> ~ P x) ->
  filter Q (filter (fun x => ~ P x) l) = filter Q l.
Proof.
  intros HQ. induction l as [|x l IH]; [done|].
  rewrite (filter_cons (fun x => ~ P x)), (filter_cons Q).
  destruct (decide (~ P x)) as [Hn|Hn].
  - rewrite filter_cons. destruct (decide (Q x)); by rewrite IH.
  - destruct (decide (Q x)) as [Hq|Hq]; [|done]. by destruct Hn; apply HQ.
Qed.

(** X5.  Saving an explanation changes what is read under its own key
    only: a read under a key that differs in the lower-cased name, the
    lower-cased context or the abnormal type returns what it returned
    before, and the other tables are not touched. *)
Theorem explanation_saved_under_one_key db n c a e n' c' a' :
  (Py.lower n', Py.lower c', a') <> (Py.lower n, Py.lower c, a) ->
  get_test_explanation (save_test_explanation db n c a e) n' c' a'
  = get_test_explanation db n' c' a'
  /\ patients (save_test_explanation db n c a e) = patients db
  /\ reports (save_test_explanation db n c a e) = reports db
  /\ test_results (save_test_explanation db n c a e) = test_results db.
Proof.
  intros Hk. split; [|done]. unfold get_test_explanation, save_test_explanation. simpl.
  rewrite filter_app, filter_under_other_key.
  - rewrite filter_cons, filter_nil. destruct (decide _) as [Hs|_].
    + destruct Hk. unfold same_key in Hs. simpl in Hs. destruct Hs as (-> & -> & ->). done.
    + by rewrite app_nil_r.
  - intros x (H1 & H2 & H3) (H4 & H5 & H6). apply Hk. congruence.
Qed.

Lemma explanation_saved_under_one_key_witness :
  (Py.lower "HbA1c", Py.lower "Diabetes Panel", "low")
  <> (Py.lower "hba1c", Py.lower "diabetes panel", "high")
  /\ get_test_explanation
       (save_test_explanation
          (save_test_explanation init_db "HbA1c" "Diabetes Panel" "low" "first")
          "hba1c" "diabetes panel" "high" "second")
       "HbA1c" "Diabetes Panel" "low"
     = get_test_explanation
         (save_test_explanation init_db "HbA1c" "Diabetes Panel" "low" "first")
         "HbA1c" "Diabetes Panel" "low".
Proof.
  assert ((Py.lower "HbA1c", Py.lower "Diabetes Panel", "low")
          <> (Py.lower "hba1c", Py.lower "diabetes panel", "high")) as Hk
    by (vm_compute; discriminate).
  split; [exact Hk|].
  destruct (explanation_saved_under_one_key
              (save_test_explanation init_db "HbA1c" "Diabetes Panel" "low" "first")
              "hba1c" "diabetes panel" "high" "second"
              "HbA1c" "Diabetes Panel" "low" Hk) as (H & _).
  exact H.
Defined.
End Registry.

Section CanonicalTests.
Import Canonical.

(** X6.  [upsert_canonical_test] with a key [k] leaves exactly one row
    under [k], the one just written, and every row under another key (or
    under no key) is listed after the call exactly when it was listed
    before. *)
Theorem canonical_upsert_replaces_by_id table k name u p :
  let table' := upsert_canonical_test table (Some k) name u p in
  filter (fun row => canonical_id row = Some k) table'
  = [{| canonical_id := Some k; canonical_name := name; unit := u; panel := p |}]
  /\ (Some k, name, u, p) ∈ get_all_canonical_tests table'
  /\ forall row, row.1.1.1 <> Some k ->
       (row ∈ get_all_canonical_tests table' <-> row ∈ get_all_canonical_tests table).
Proof.
  intros table'. unfold table', upsert_canonical_test, get_all_canonical_tests.
  split_and!.
  - rewrite filter_app.
    assert (filter (fun row => canonical_id row = Some k)
              (filter (fun row => ~ conflicts (Some k) row) table) = []) as ->.
    { induction table as [|x l IH]; [done|].
      rewrite (filter_cons (fun row => ~ conflicts (Some k) row)).
      destruct (decide _) as [Hx|_]; [|done].
      rewrite filter_cons. destruct (decide _) as [Hid|_]; [|done].
      destruct Hx. by exists k. }
    rewrite filter_cons, filter_nil. simpl. by destruct (decide _).
  - apply list_elem_of_fmap. eexists. split; [|apply elem_of_app; right; by left]. done.
  - intros row Hrow. rewrite !list_elem_of_fmap. split.
    + intros (x & -> & [Hx| ->%list_elem_of_singleton]%elem_of_app).
      * apply list_elem_of_filter in Hx as [_ Hx]. eauto.
      * by destruct Hrow.
    + intros (x & -> & Hx). exists x. split; [done|].
      apply elem_of_app. left. apply list_elem_of_filter. split; [|done].
      intros (k' & Hk & Hid). simpl in Hrow. congruence.
Qed.
End CanonicalTests.

(** ** What the extractor hands on *)

Section ExtractorOutput.
Import Extractor.

(** An observation as the extractor leaves it: a dict whose name, when
    it has one that counts as true, is a normalized text. *)
Local Abbreviation named_dict :=
  (fun t : pyval =>
     exists d, t = VDict d
       /\ forall n, d !! "test_name" = Some n -> truthy n = true ->
            exists s, n = VStr (normalize_test_name s)).






End ExtractorOutput.

(** ** The resolver over a document *)

Section ResolverRuns.
Import App Run.
Variable post : request -> reply.
Variable loads : string -> option pyval.

Local Abbreviation resolve_test := (resolve_test post loads).
Local Abbreviation resolve_tests := (resolve_tests post loads).


End ResolverRuns.

Section UploadRequests.
Import Db Records Ingest Run.
Variable post : request -> reply.
Variable loads : string -> option pyval.
Variable extract_tests_from_page : string -> result pyval.
Variable recover_ranges_from_text : string -> gmap (string * string) string.
Variable repr : pyval -> string.

Local Abbreviation add_document :=
  (Ingest.add_document post loads extract_tests_from_page recover_ranges_from_text repr).




End UploadRequests.


Section Outage.
Import Db Records Ingest.
Variable post : request -> reply.
Variable loads : string -> option pyval.

Lemma classify_texts n u : exists ty, App.classify_test_type (VStr n) (VStr u) = Ok ty.
Proof.
  unfold App.classify_test_type. cbn [str_lower mbind result_bind].
  destruct (Py.contains "/" (Py.lower n)); [eauto|].
  cbn [mbind result_bind]. destruct (Py.lower u =? "ratio")%string; eauto.
Qed.

Lemma extract_panel_text n : exists pn, App.extract_panel (VStr n) = Ok pn.
Proof.
  unfold App.extract_panel. cbn [str_lower mbind result_bind].
  destruct (App.any_in _ (Py.lower n)); [eauto|].
  destruct (App.any_in _ (Py.lower n)); [eauto|].
  destruct (_ || _); eauto.
Qed.

Lemma describe_texts n u : exists et, App.describe (VStr n) (VStr u) = Ok et.
Proof.
  unfold App.describe.
  destruct (classify_texts n u) as (ty & ->). cbn [mbind result_bind].
  destruct (extract_panel_text n) as (pn & ->). cbn [mbind result_bind]. eauto.
Qed.

(** The vocabulary query never raises: names and units are texts. *)
Lemma get_existing_tests_returns db patient_name :
  exists existing, App.get_existing_tests_for_patient db patient_name = Ok existing.
Proof.
  unfold App.get_existing_tests_for_patient.
  induction (patient_rows db patient_name) as [|[n u] rows (ex & IH)]; simpl; [eauto|].
  destruct (describe_texts n u) as (et & ->). simpl. rewrite IH. simpl. eauto.
Qed.

Lemma resolve_tests_nil existing :
  App.resolve_tests post loads existing [] = ([], Ok []).
Proof. done. Qed.

Section Unreachable.
Hypothesis unreachable : forall req, post req = NoReply.
Variable recover_ranges_from_text : string -> gmap (string * string) string.

Lemma first_pass_unreachable st texts :
  App.first_pass (Extractor.extract_tests_from_page post loads)
    recover_ranges_from_text st texts = Ok st.
Proof.
  induction texts as [|text texts IH]; simpl; [done|].
  unfold App.page_step. destruct (text =? "")%string; simpl; [done|].
  unfold Extractor.extract_tests_from_page. rewrite unreachable. simpl.
  rewrite app_nil_r. destruct st. simpl. apply IH.
Qed.
End Unreachable.

(** X9.  While the service cannot be reached, an upload with a patient
    name ends as a success that stores the report and no test row, and
    sends no request to the matcher. *)
Theorem unreachable_service_stores_empty_report
    recover_ranges_from_text repr db name report_date source_file texts :
  (forall req, post req = NoReply) ->
  name <> "" ->
  Ingest.add_document post loads (Extractor.extract_tests_from_page post loads)
    recover_ranges_from_text repr db (Some name) report_date source_file texts
  = ((insert_report (get_or_create_patient db name).1
        (get_or_create_patient db name).2 report_date source_file).1, [], Added).
Proof.
  intros Hpost Hname. unfold Ingest.add_document.
  destruct (String.eqb_spec name "") as [|_]; [done|].
  destruct (get_or_create_patient db name) as [db1 pid]. simpl.
  unfold App.process_document, App.merge_pages.
  rewrite first_pass_unreachable by done. simpl.
  destruct (get_existing_tests_returns
              (with_reports db1
                 (reports db1 ++
                  [{| report_id := next_id (report_id <$> reports db1);
                      report_patient := pid; report_date := report_date;
                      Db.source_file := source_file |}])%list) name) as (ex & ->).
  simpl. unfold with_test_results, with_reports. simpl. by rewrite app_nil_r.
Qed.

(** X10.  When every call of the matcher fails inside its [try] block
    (no reply, a body that cannot be decoded, no [response] entry, or a
    response that is no JSON), the resolver hands the observations on
    unchanged. *)
Theorem matcher_outage_keeps_names existing ts ts' :
  (forall req, raises (App.matcher_output post loads req)) ->
  (App.resolve_tests post loads existing ts).2 = Ok ts' ->
  ts' = ts.
Proof.
  intros Hout. revert ts'. induction ts as [|t ts IH]; intros ts'; simpl.
  { by intros [= <-]. }
  assert (forall t', (App.resolve_test post loads existing t).2 = Ok t' -> t' = t) as Ht.
  { unfold App.resolve_test.
    destruct (item t "test_name") as [n|]; simpl; [|done].
    destruct (attr_get t "unit" (VStr "")) as [u|]; simpl; [|done].
    destruct (App.describe n u) as [new_test|]; simpl; [|done].
    destruct (App.candidates_of new_test existing) as [[|et ets]|]; simpl; [| |done].
    - by intros t' [= <-].
    - specialize (Hout (MatchRequest (App.name new_test)
                          (App.name et :: (App.name <$> ets)))).
      destruct (App.matcher_output _ _ _); [done|]. simpl. by intros t' [= <-]. }
  destruct (App.resolve_test post loads existing t) as [sent [t'|e]]; simpl in *;
    [|done].
  destruct (App.resolve_tests post loads existing ts) as [sent' [ts''|e]]; simpl in *;
    [|done].
  intros [= <-]. by rewrite (Ht t' eq_refl), (IH ts'' eq_refl).
Qed.
End Outage.

Lemma unreachable_service_stores_empty_report_witness :
  (forall req : request, (fun _ => NoReply) req = NoReply)
  /\ "Asha Rao" <> ""
  /\ Ingest.add_document (fun _ => NoReply) Upload.no_json
       (Extractor.extract_tests_from_page (fun _ => NoReply) Upload.no_json)
       Upload.nothing_recovered Sample.repr Db.init_db (Some "Asha Rao") None
       "report.pdf" [Sample.page_one]
     = (Upload.empty_report, [], Ingest.Added).
Proof.
  split; [done|]. split; [done|].
  apply (unreachable_service_stores_empty_report (fun _ => NoReply) Upload.no_json
           Upload.nothing_recovered Sample.repr Db.init_db "Asha Rao" None
           "report.pdf" [Sample.page_one]); done.
Defined.

Lemma matcher_outage_keeps_names_witness :
  (forall req, raises (App.matcher_output Upload.garbled Upload.no_json req))
  /\ (App.resolve_tests Upload.garbled Upload.no_json Sample.vocabulary
        [Sample.ldl_reading]).2 = Ok [Sample.ldl_reading]
  /\ [Sample.ldl_reading] = [Sample.ldl_reading].
Proof.
  assert (forall req, raises (App.matcher_output Upload.garbled Upload.no_json req))
    as Hout by done.
  assert ((App.resolve_tests Upload.garbled Upload.no_json Sample.vocabulary
             [Sample.ldl_reading]).2 = Ok [Sample.ldl_reading]) as Hres
    by (vm_compute; reflexivity).
  split; [exact Hout|]. split; [exact Hres|].
  exact (matcher_outage_keeps_names Upload.garbled Upload.no_json Sample.vocabulary
           [Sample.ldl_reading] [Sample.ldl_reading] Hout Hres).
Defined.
